(** * WildfireSmokeAnalysis: a shallow embedding of the contract

    The development follows [contracts/WildfireSmokeAnalysis.sol].  Storage
    mappings are finite maps whose absent keys read as the Solidity zero
    value, a transaction either returns the next state or reverts (and then
    leaves storage as it was), and the homomorphic-encryption library the
    contract imports is an interface with a plaintext test double. *)

From Stdlib Require Import NArith String List Lia.
From Stdlib Require Import Init.Byte.
From Stdlib Require Import Sorting.Sorted Sorting.Permutation.
From stdpp Require Import gmap strings list fin_maps.

Local Open Scope N_scope.

(** ** Machine integers *)

Definition MAX_UINT256 : N := 2 ^ 256 - 1.
Definition UINT32_MOD : N := 2 ^ 32.

(** [uint32(x)]: the explicit narrowing conversion keeps the low 32 bits. *)
Definition uint32 (x : N) : N := x mod UINT32_MOD.

(** ** Transaction results *)

Inductive Error : Type :=
| RequireFailed (reason : string) (* require(cond, reason) failed *)
| ArithmeticOverflow             (* Panic(0x11) of checked arithmetic *)
| InvalidKMSSignatures           (* FHE.checkSignatures rejected the proof *)
| AbiDecodeError.                (* abi.decode reverted *)

Inductive result (A : Type) : Type :=
| Ok (a : A)
| Revert (e : Error).
Arguments Ok {A} a.
Arguments Revert {A} e.

Definition bind {A B : Type} (r : result A) (k : A -> result B) : result B :=
  match r with
  | Ok a => k a
  | Revert e => Revert e
  end.

Definition require (cond : bool) (reason : string) : result unit :=
  if cond then Ok tt else Revert (RequireFailed reason).

Notation "x <- r ;; k" := (bind r (fun x => k))
  (at level 100, r at next level, right associativity).
Notation "r ;;; k" := (bind r (fun _ => k))
  (at level 100, right associativity).

(** ** The encrypted-value library *)

Module FHE.
(** The operations of [@fhevm/solidity/lib/FHE.sol] the contract calls.
    [uninitialized] is the zero handle a fresh storage slot holds. *)
Class Scheme : Type := {
  euint32 : Type;
  uninitialized : euint32;
  asEuint32 : N -> euint32;
  add : euint32 -> euint32 -> euint32;
  mul : euint32 -> euint32 -> euint32;
  div : euint32 -> euint32 -> euint32;
  checkSignatures : N -> list byte -> list byte -> bool
}.

(** What the library promises about the cleartext behind the values it
    returns: [uint32] arithmetic, with truncating division by a non-zero
    divisor.  [decrypt] is not an operation of the contract. *)
Record Homomorphic (F : Scheme) (decrypt : euint32 -> N) : Prop := {
  decrypt_asEuint32 : forall v, decrypt (asEuint32 v) = uint32 v;
  decrypt_add : forall a b, decrypt (add a b) = (decrypt a + decrypt b) mod UINT32_MOD;
  decrypt_mul : forall a b, decrypt (mul a b) = (decrypt a * decrypt b) mod UINT32_MOD;
  decrypt_div : forall a b, decrypt b <> 0 -> decrypt (div a b) = decrypt a / decrypt b
}.
End FHE.

(** A plaintext double of the library: an encrypted value is its cleartext,
    arithmetic is that of [uint32], and a proof is valid when it is the
    single byte 0x01.  A zero divisor yields the all-ones value. *)
Definition plain_div (a b : N) : N :=
  if b =? 0 then UINT32_MOD - 1 else a / b.

Definition plain_checkSignatures (requestId : N) (cleartexts proof : list byte) : bool :=
  match proof with
  | [x01] => true
  | _ => false
  end.

Definition plain_decrypt (v : N) : N := v.

Definition Plain : FHE.Scheme := {|
  FHE.euint32 := N;
  FHE.uninitialized := 0;
  FHE.asEuint32 := fun v => uint32 v;
  FHE.add := fun a b => (a + b) mod UINT32_MOD;
  FHE.mul := fun a b => (a * b) mod UINT32_MOD;
  FHE.div := plain_div;
  FHE.checkSignatures := plain_checkSignatures
|}.

(** ** ABI decoding of the callback payload *)

Definition be_word (bs : list byte) : N :=
  fold_left (fun acc b => acc * 256 + Byte.to_N b) bs 0.

(** [abi.decode(cleartexts, (uint32))]: the payload must hold one 32-byte
    word, read big-endian, whose value fits in 32 bits. *)
Definition abi_decode_uint32 (cleartexts : list byte) : option N :=
  if (length cleartexts <? 32)%nat then None
  else
    let w := be_word (firstn 32 cleartexts) in
    if w <? UINT32_MOD then Some w else None.

(** [abi.encode(uint32(v))], used to build payloads. *)
Definition abi_encode_uint32 (v : N) : list byte :=
  repeat x00 28 ++
  map (fun k => default x00 (Byte.of_N ((v / 256 ^ k) mod 256))) [3; 2; 1; 0].

(** ** Alert classification (the threshold chain of the callback) *)

Definition alertLevelOf (prediction : N) : string :=
  if 8000 <? prediction then "Hazardous"
  else if 5000 <? prediction then "Very Unhealthy"
  else if 3000 <? prediction then "Unhealthy"
  else if 1000 <? prediction then "Moderate"
  else "Good".

(** Position of a label in the ordered scale, [Good] lowest. *)
Definition severity (level : string) : nat :=
  if String.eqb level "Hazardous" then 4
  else if String.eqb level "Very Unhealthy" then 3
  else if String.eqb level "Unhealthy" then 2
  else if String.eqb level "Moderate" then 1
  else 0.

Section Contract.
Context {F : FHE.Scheme}.
Import FHE.

(** ** Storage *)

Record EncryptedSensorData : Type := {
  agency : N;
  encryptedSmokeLevel : euint32;
  encryptedWindSpeed : euint32;
  encryptedWindDirection : euint32;
  timestamp : N;
  locationId : N
}.

Record SmokePropagationModel : Type := {
  encryptedPrediction : euint32;
  isComputed : bool
}.

Record AirQualityAlert : Type := {
  alertLevel : string;
  isRevealed : bool
}.

Inductive Event : Type :=
| DataUploaded (id loc : N)
| ModelComputed (loc : N)
| AlertGenerated (loc : N)
| DecryptionRequested (loc : N).

(** [oracleRequests] is the oracle's side of [FHE.requestDecryption]: the
    requests it has been sent, oldest first. *)
Record State : Type := {
  dataCount : N;
  sensorData : gmap N EncryptedSensorData;
  propagationModels : gmap N SmokePropagationModel;
  airQualityAlerts : gmap N AirQualityAlert;
  locationData : gmap N (list N);
  requestToDataId : gmap N N;
  oracleRequests : list (N * list euint32);
  events : list Event
}.

Definition init : State := {|
  dataCount := 0;
  sensorData := ∅;
  propagationModels := ∅;
  airQualityAlerts := ∅;
  locationData := ∅;
  requestToDataId := ∅;
  oracleRequests := [];
  events := []
|}.

(** Zero values read from keys never written. *)
Definition zeroSensorData : EncryptedSensorData := {|
  agency := 0;
  encryptedSmokeLevel := uninitialized;
  encryptedWindSpeed := uninitialized;
  encryptedWindDirection := uninitialized;
  timestamp := 0;
  locationId := 0
|}.

Definition zeroModel : SmokePropagationModel :=
  {| encryptedPrediction := uninitialized; isComputed := false |}.

Definition zeroAlert : AirQualityAlert :=
  {| alertLevel := ""; isRevealed := false |}.

Definition sensorDataAt (s : State) (id : N) : EncryptedSensorData :=
  default zeroSensorData (sensorData s !! id).

Definition modelAt (s : State) (loc : N) : SmokePropagationModel :=
  default zeroModel (propagationModels s !! loc).

Definition alertAt (s : State) (loc : N) : AirQualityAlert :=
  default zeroAlert (airQualityAlerts s !! loc).

Definition ledgerAt (s : State) (loc : N) : list N :=
  default [] (locationData s !! loc).

Definition requestLocation (s : State) (requestId : N) : N :=
  default 0 (requestToDataId s !! requestId).

(** ** State-changing functions *)

Definition uploadSensorData (msg_sender block_timestamp : N)
    (smoke windSpeed windDirection : euint32) (loc : N) (s : State) : result State :=
  if dataCount s =? MAX_UINT256 then Revert ArithmeticOverflow
  else
    let newId := dataCount s + 1 in
    Ok {|
      dataCount := newId;
      sensorData :=
        <[newId := {| agency := msg_sender;
                      encryptedSmokeLevel := smoke;
                      encryptedWindSpeed := windSpeed;
                      encryptedWindDirection := windDirection;
                      timestamp := block_timestamp;
                      locationId := loc |}]> (sensorData s);
      propagationModels :=
        <[loc := {| encryptedPrediction := asEuint32 0; isComputed := false |}]>
          (propagationModels s);
      airQualityAlerts :=
        <[loc := {| alertLevel := ""; isRevealed := false |}]> (airQualityAlerts s);
      locationData := <[loc := ledgerAt s loc ++ [newId]]> (locationData s);
      requestToDataId := requestToDataId s;
      oracleRequests := oracleRequests s;
      events := events s ++ [DataUploaded newId loc]
    |}.

(** One pass of the summation loop. *)
Definition accumulate (s : State) (acc : euint32 * euint32 * euint32) (dataId : N)
    : euint32 * euint32 * euint32 :=
  let '(avgSmoke, avgWindSpeed, avgWindDirection) := acc in
  let d := sensorDataAt s dataId in
  (add avgSmoke (encryptedSmokeLevel d),
   add avgWindSpeed (encryptedWindSpeed d),
   add avgWindDirection (encryptedWindDirection d)).

Definition computePropagationModel (loc : N) (s : State) : result State :=
  require (0 <? length (ledgerAt s loc))%nat "No data for location" ;;;
  require (negb (isComputed (modelAt s loc))) "Already computed" ;;;
  let count := N.of_nat (length (ledgerAt s loc)) in
  let '(avgSmoke, avgWindSpeed, avgWindDirection) :=
    fold_left (accumulate s) (ledgerAt s loc)
              (asEuint32 0, asEuint32 0, asEuint32 0) in
  let avgSmoke := div avgSmoke (asEuint32 (uint32 count)) in
  let avgWindSpeed := div avgWindSpeed (asEuint32 (uint32 count)) in
  let avgWindDirection := div avgWindDirection (asEuint32 (uint32 count)) in
  Ok {|
    dataCount := dataCount s;
    sensorData := sensorData s;
    propagationModels :=
      <[loc := {| encryptedPrediction := mul avgSmoke avgWindSpeed;
                  isComputed := true |}]> (propagationModels s);
    airQualityAlerts := airQualityAlerts s;
    locationData := locationData s;
    requestToDataId := requestToDataId s;
    oracleRequests := oracleRequests s;
    events := events s ++ [ModelComputed loc]
  |}.

(** [reqId] is the identifier [FHE.requestDecryption] hands back. *)
Definition generateAirQualityAlert (reqId : N) (loc : N) (s : State) : result State :=
  require (isComputed (modelAt s loc)) "Model not computed" ;;;
  let ciphertexts := [encryptedPrediction (modelAt s loc)] in
  Ok {|
    dataCount := dataCount s;
    sensorData := sensorData s;
    propagationModels := propagationModels s;
    airQualityAlerts := airQualityAlerts s;
    locationData := locationData s;
    requestToDataId := <[reqId := loc]> (requestToDataId s);
    oracleRequests := oracleRequests s ++ [(reqId, ciphertexts)];
    events := events s ++ [DecryptionRequested loc]
  |}.

Definition generateAlertCallback (requestId : N) (cleartexts proof : list byte)
    (s : State) : result State :=
  let loc := requestLocation s requestId in
  require (negb (loc =? 0)) "Invalid request" ;;;
  let alert := alertAt s loc in
  require (negb (isRevealed alert)) "Alert already generated" ;;;
  (if checkSignatures requestId cleartexts proof then Ok tt
   else Revert InvalidKMSSignatures) ;;;
  match abi_decode_uint32 cleartexts with
  | None => Revert AbiDecodeError
  | Some prediction =>
      Ok {|
        dataCount := dataCount s;
        sensorData := sensorData s;
        propagationModels := propagationModels s;
        airQualityAlerts :=
          <[loc := {| alertLevel := alertLevelOf prediction; isRevealed := true |}]>
            (airQualityAlerts s);
        locationData := locationData s;
        requestToDataId := requestToDataId s;
        oracleRequests := oracleRequests s;
        events := events s ++ [AlertGenerated loc]
      |}
  end.

(** ** Views *)

Definition getEncryptedModel (loc : N) (s : State) : result euint32 :=
  require (isComputed (modelAt s loc)) "Not computed" ;;;
  Ok (encryptedPrediction (modelAt s loc)).

Definition getAirQualityAlert (loc : N) (s : State) : result string :=
  require (isRevealed (alertAt s loc)) "Not generated" ;;;
  Ok (alertLevel (alertAt s loc)).

Definition getLocationDataCount (loc : N) (s : State) : result N :=
  Ok (N.of_nat (length (ledgerAt s loc))).

(** ** Transactions and traces *)

Inductive Call : Type :=
| UploadSensorData (msg_sender block_timestamp : N)
    (smoke windSpeed windDirection : euint32) (loc : N)
| ComputePropagationModel (loc : N)
| GenerateAirQualityAlert (reqId loc : N)
| GenerateAlertCallback (requestId : N) (cleartexts proof : list byte).

Definition exec (c : Call) (s : State) : result State :=
  match c with
  | UploadSensorData a t sm ws wd loc => uploadSensorData a t sm ws wd loc s
  | ComputePropagationModel loc => computePropagationModel loc s
  | GenerateAirQualityAlert reqId loc => generateAirQualityAlert reqId loc s
  | GenerateAlertCallback requestId cleartexts proof =>
      generateAlertCallback requestId cleartexts proof s
  end.

(** A reverted transaction leaves storage as it found it. *)
Definition step (s : State) (c : Call) : State :=
  match exec c s with
  | Ok s' => s'
  | Revert _ => s
  end.

Definition run (calls : list Call) (s : State) : State :=
  fold_left step calls s.

Definition reachable (s : State) : Prop :=
  exists calls, run calls init = s.

End Contract.

(** ** Concrete traces over the plaintext double *)

Module Scenario.
#[local] Existing Instance Plain.

Definition agencyA : N := 7.
Definition validProof : list byte := [x01].
Definition forgedProof : list byte := [x00].

Definition upload (smoke windSpeed loc : N) : Call :=
  UploadSensorData agencyA 1700000000 smoke windSpeed 90 loc.

(** Three readings {2,4,6} x {10,10,10} for location 1. *)
Definition threeReadings : State :=
  run [upload 2 10 1; upload 4 10 1; upload 6 10 1] init.

(** One reading, smoke 9000 and wind speed 1, for location 2. *)
Definition singleReading : State :=
  run [upload 9000 1 2] init.

Definition computed : State :=
  run [ComputePropagationModel 1] threeReadings.

Definition requested : State :=
  run [GenerateAirQualityAlert 5 1] computed.

Definition revealed : State :=
  run [GenerateAlertCallback 5 (abi_encode_uint32 40) validProof] requested.

(** Location 0 uploaded to, computed and requested under identifier 3. *)
Definition zeroCalls : list Call :=
  [upload 5 5 0; ComputePropagationModel 0; GenerateAirQualityAlert 3 0].

Definition zeroRequested : State := run zeroCalls init.

(** Readings for locations 1 and 2 interleaved; location 1 then computed,
    requested under identifier 5 and revealed. *)
Definition history : list Call :=
  [upload 2 10 1; upload 4 10 1; upload 9000 1 2; upload 6 10 1;
   ComputePropagationModel 1; GenerateAirQualityAlert 5 1;
   GenerateAlertCallback 5 (abi_encode_uint32 40) validProof].

Definition twoLocations : State := run history init.

(** The same two readings uploaded in either order. *)
Definition ascending : State := run [upload 2 10 1; upload 4 10 1] init.
Definition descending : State := run [upload 4 10 1; upload 2 10 1] init.
End Scenario.

(** ** Reference definitions the properties are stated against *)

(** The five bands as the specification words them: a label with the test
    for membership of a decoded value. *)
Definition spec_bands : list (string * (N -> bool)) :=
  [("Hazardous"%string, fun v => 8000 <? v);
   ("Very Unhealthy"%string, fun v => (5000 <? v) && (v <=? 8000));
   ("Unhealthy"%string, fun v => (3000 <? v) && (v <=? 5000));
   ("Moderate"%string, fun v => (1000 <? v) && (v <=? 3000));
   ("Good"%string, fun v => v <=? 1000)].

Section Reference.
Context {F : FHE.Scheme}.
Import FHE.

(** Homomorphic sum of a list of encrypted values, from encrypted zero. *)
Definition esum (xs : list euint32) : euint32 :=
  fold_left add xs (asEuint32 0).

(** The readings of a location, in ledger order. *)
Definition readingsAt (s : State) (loc : N) : list EncryptedSensorData :=
  map (sensorDataAt s) (ledgerAt s loc).

(** Every identifier in a ledger was handed out by the counter and names
    a stored reading tagged with that ledger's location. *)
Definition ledgers_consistent (s : State) : Prop :=
  forall (loc id : N), In id (ledgerAt s loc) ->
    1 <= id <= dataCount s /\ locationId (sensorDataAt s id) = loc.

(** The state with the wind direction of every stored reading replaced:
    the reading under identifier [id] gets direction [g id]. *)
Definition withWindDirection (g : N -> euint32) (s : State) : State := {|
  dataCount := dataCount s;
  sensorData :=
    map_imap (fun id d => Some {| agency := agency d;
                                  encryptedSmokeLevel := encryptedSmokeLevel d;
                                  encryptedWindSpeed := encryptedWindSpeed d;
                                  encryptedWindDirection := g id;
                                  timestamp := timestamp d;
                                  locationId := locationId d |})
             (sensorData s);
  propagationModels := propagationModels s;
  airQualityAlerts := airQualityAlerts s;
  locationData := locationData s;
  requestToDataId := requestToDataId s;
  oracleRequests := oracleRequests s;
  events := events s
|}.
(** The readings, the counter and the ledgers agree: the stored readings
    are those numbered 1 to [dataCount], a ledger holds exactly the
    identifiers of the readings tagged with its location, and it holds them
    in increasing order. *)
Definition store_invariant (s : State) : Prop :=
  (forall id : N, is_Some (sensorData s !! id) <-> 1 <= id <= dataCount s) /\
  (forall loc id : N,
     In id (ledgerAt s loc) <->
     1 <= id <= dataCount s /\ locationId (sensorDataAt s id) = loc) /\
  (forall loc : N, StronglySorted N.lt (ledgerAt s loc)).

(** A location without readings has nothing stored and nothing pending. *)
Definition empty_locations_untouched (s : State) : Prop :=
  forall loc : N, ledgerAt s loc = [] ->
    propagationModels s !! loc = None /\
    airQualityAlerts s !! loc = None /\
    (forall r : N, requestToDataId s !! r <> Some loc).

(** An alert is unset, or revealed with the label of some decoded value. *)
Definition alert_settled (a : AirQualityAlert) : Prop :=
  a = zeroAlert \/
  exists v : N, a = {| alertLevel := alertLevelOf v; isRevealed := true |}.

(** The location a call acts on; a callback acts on the location its
    request identifier is recorded for. *)
Definition target (s : State) (c : Call) : N :=
  match c with
  | UploadSensorData _ _ _ _ _ loc => loc
  | ComputePropagationModel loc => loc
  | GenerateAirQualityAlert _ loc => loc
  | GenerateAlertCallback requestId _ _ => requestLocation s requestId
  end.

Definition isUpload (c : Call) : bool :=
  match c with
  | UploadSensorData _ _ _ _ _ _ => true
  | _ => false
  end.

Definition isRequestWith (r : N) (c : Call) : bool :=
  match c with
  | GenerateAirQualityAlert reqId _ => reqId =? r
  | _ => false
  end.
End Reference.

(** The reading identifiers the [DataUploaded] events of a log announce for
    a location, oldest first. *)
Definition uploadedIds (loc : N) (log : list Event) : list N :=
  flat_map (fun e => match e with
                     | DataUploaded id l => if l =? loc then [id] else []
                     | _ => []
                     end) log.

(** The five labels the callback can store. *)
Definition alertLabels : list string :=
  ["Good"; "Moderate"; "Unhealthy"; "Very Unhealthy"; "Hazardous"]%string.

(** Sum of cleartext values, as unbounded naturals. *)
Definition total (xs : list N) : N := fold_right N.add 0 xs.

(** * Properties *)

(** ** The classifier *)

Ltac split_thresholds :=
  repeat match goal with
         | |- context [?a <? ?b] => destruct (N.ltb_spec a b)
         | |- context [?a <=? ?b] => destruct (N.leb_spec a b)
         end.

Lemma alertLevelOf_monotone (w v : N) :
  w <= v -> (severity (alertLevelOf w) <= severity (alertLevelOf v))%nat.
Proof.
  intros Hwv. unfold alertLevelOf.
  split_thresholds; cbn; solve [lia].
Qed.

(** C3: every decoded value gets the label of exactly one of the five
    bands, bounded below exclusively at 8000, 5000, 3000 and 1000; a band's
    test holds exactly for the values given its label, a smaller value never
    gets a more severe label, and the five boundary examples come out as
    listed. *)
Theorem alertLevelOf_bands (v : N) :
  (8000 < v -> alertLevelOf v = "Hazardous"%string) /\
  (5000 < v <= 8000 -> alertLevelOf v = "Very Unhealthy"%string) /\
  (3000 < v <= 5000 -> alertLevelOf v = "Unhealthy"%string) /\
  (1000 < v <= 3000 -> alertLevelOf v = "Moderate"%string) /\
  (v <= 1000 -> alertLevelOf v = "Good"%string) /\
  (forall level inBand, In (level, inBand) spec_bands ->
     (inBand v = true <-> alertLevelOf v = level)) /\
  (forall w, w <= v -> (severity (alertLevelOf w) <= severity (alertLevelOf v))%nat) /\
  alertLevelOf 8001 = "Hazardous"%string /\
  alertLevelOf 8000 = "Very Unhealthy"%string /\
  alertLevelOf 5001 = "Very Unhealthy"%string /\
  alertLevelOf 1 = "Good"%string /\
  alertLevelOf 0 = "Good"%string.
Proof.
  repeat apply conj; try reflexivity.
  - intros H. unfold alertLevelOf. split_thresholds; solve [reflexivity | lia].
  - intros H. unfold alertLevelOf. split_thresholds; solve [reflexivity | lia].
  - intros H. unfold alertLevelOf. split_thresholds; solve [reflexivity | lia].
  - intros H. unfold alertLevelOf. split_thresholds; solve [reflexivity | lia].
  - intros H. unfold alertLevelOf. split_thresholds; solve [reflexivity | lia].
  - intros level inBand Hin. cbn in Hin.
    repeat (destruct Hin as [[= <- <-]|Hin]); [..|destruct Hin];
      unfold alertLevelOf; split_thresholds; cbn;
      split; intros; solve [reflexivity | discriminate | lia].
  - intros w. apply alertLevelOf_monotone.
Qed.

Section Properties.
Context {F : FHE.Scheme}.
Import FHE.

Implicit Types (s : State) (loc requestId reqId : N) (c : Call).

(** ** Reverts roll back *)

Lemma step_revert s c e : exec c s = Revert e -> step s c = s.
Proof. unfold step. intros ->. reflexivity. Qed.

Lemma step_ok s c s' : exec c s = Ok s' -> step s c = s'.
Proof. unfold step. intros ->. reflexivity. Qed.

Lemma run_app calls1 calls2 s :
  run (calls1 ++ calls2) s = run calls2 (run calls1 s).
Proof. unfold run. apply fold_left_app. Qed.

Lemma reachable_init : reachable init.
Proof. exists []. reflexivity. Qed.

Lemma reachable_step s c : reachable s -> reachable (step s c).
Proof.
  intros [calls <-]. exists (calls ++ [c]). rewrite run_app. reflexivity.
Qed.

(** Induction over the transactions that built a state. *)
Lemma reachable_ind' (P : State -> Prop) :
  P init ->
  (forall s c s', reachable s -> P s -> exec c s = Ok s' -> P s') ->
  forall s, reachable s -> P s.
Proof.
  intros Hinit Hstep s [calls <-].
  induction calls as [|c calls IH] using rev_ind; [exact Hinit|].
  rewrite run_app. cbn [run fold_left].
  assert (Hr : reachable (run calls init)) by (exists calls; reflexivity).
  unfold step. destruct (exec c (run calls init)) as [s'|e] eqn:E; [|exact IH].
  exact (Hstep _ _ _ Hr IH E).
Qed.

(** ** The guards of [computePropagationModel] *)

Lemma ledger_empty_length s loc :
  ledgerAt s loc = [] -> (0 <? length (ledgerAt s loc))%nat = false.
Proof. intros ->. reflexivity. Qed.

Lemma ledger_nonempty_length s loc :
  ledgerAt s loc <> [] -> (0 <? length (ledgerAt s loc))%nat = true.
Proof.
  destruct (ledgerAt s loc); [congruence|]. intros _. reflexivity.
Qed.

Lemma computePropagationModel_no_data s loc :
  ledgerAt s loc = [] ->
  computePropagationModel loc s = Revert (RequireFailed "No data for location").
Proof.
  intros H. unfold computePropagationModel.
  rewrite (ledger_empty_length _ _ H). reflexivity.
Qed.

Lemma computePropagationModel_already s loc :
  ledgerAt s loc <> [] -> isComputed (modelAt s loc) = true ->
  computePropagationModel loc s = Revert (RequireFailed "Already computed").
Proof.
  intros Hne Hc. unfold computePropagationModel.
  rewrite (ledger_nonempty_length _ _ Hne), Hc. reflexivity.
Qed.

(** What a successful call leaves behind. *)
Lemma computePropagationModel_ok_inv s loc s' :
  computePropagationModel loc s = Ok s' ->
  ledgerAt s loc <> [] /\ isComputed (modelAt s loc) = false /\
  locationData s' = locationData s /\ sensorData s' = sensorData s /\
  airQualityAlerts s' = airQualityAlerts s /\
  requestToDataId s' = requestToDataId s /\
  isComputed (modelAt s' loc) = true /\
  (forall loc', loc' <> loc -> modelAt s' loc' = modelAt s loc').
Proof.
  unfold computePropagationModel.
  destruct (0 <? length (ledgerAt s loc))%nat eqn:El; cbn; [|discriminate].
  destruct (isComputed (modelAt s loc)) eqn:Ec; cbn; [discriminate|].
  destruct (fold_left _ _ _) as [[a b] d].
  intros [= <-]; cbn. repeat split.
  - intros Hl. rewrite Hl in El. discriminate.
  - unfold modelAt; cbn. rewrite lookup_insert_eq. reflexivity.
  - intros loc' Hne. unfold modelAt; cbn.
    rewrite lookup_insert_ne by congruence. reflexivity.
Qed.

(** C4: [computePropagationModel] reverts, leaving every part of the state
    (the model map included, so no [SmokePropagationModel] entry appears)
    as it was, when the location has no reading or its model is already
    computed; right after a successful call a second call reverts with
    "Already computed" and the stored prediction is the one of the first. *)
Theorem computePropagationModel_rejects s loc :
  (ledgerAt s loc = [] ->
     computePropagationModel loc s = Revert (RequireFailed "No data for location") /\
     step s (ComputePropagationModel loc) = s /\
     propagationModels (step s (ComputePropagationModel loc)) !! loc
       = propagationModels s !! loc) /\
  (isComputed (modelAt s loc) = true ->
     (computePropagationModel loc s = Revert (RequireFailed "No data for location") \/
      computePropagationModel loc s = Revert (RequireFailed "Already computed")) /\
     step s (ComputePropagationModel loc) = s) /\
  (forall s1, computePropagationModel loc s = Ok s1 ->
     computePropagationModel loc s1 = Revert (RequireFailed "Already computed") /\
     step s1 (ComputePropagationModel loc) = s1 /\
     encryptedPrediction (modelAt (step s1 (ComputePropagationModel loc)) loc)
       = encryptedPrediction (modelAt s1 loc)).
Proof.
  split; [|split].
  - intros H. pose proof (computePropagationModel_no_data s loc H) as E.
    rewrite (step_revert _ (ComputePropagationModel loc) _ E). auto.
  - intros Hc. destruct (ledgerAt s loc) as [|x l] eqn:El.
    + pose proof (computePropagationModel_no_data s loc El) as E.
      rewrite (step_revert _ (ComputePropagationModel loc) _ E). auto.
    + assert (Hne : ledgerAt s loc <> []) by (rewrite El; discriminate).
      pose proof (computePropagationModel_already s loc Hne Hc) as E.
      rewrite (step_revert _ (ComputePropagationModel loc) _ E). auto.
  - intros s1 Hok.
    destruct (computePropagationModel_ok_inv _ _ _ Hok)
      as (Hne & _ & Hl & _ & _ & _ & Hc & _).
    assert (Hne1 : ledgerAt s1 loc <> []) by (unfold ledgerAt in *; rewrite Hl; exact Hne).
    pose proof (computePropagationModel_already s1 loc Hne1 Hc) as E.
    rewrite (step_revert _ (ComputePropagationModel loc) _ E). auto.
Qed.

(** ** The oracle callback *)

(** The callback as a decision list: each line is reached only when the
    ones above it let the call through. *)
Lemma generateAlertCallback_cases s requestId (cleartexts proof : list byte) :
  generateAlertCallback requestId cleartexts proof s =
    if requestLocation s requestId =? 0
    then Revert (RequireFailed "Invalid request")
    else if isRevealed (alertAt s (requestLocation s requestId))
    then Revert (RequireFailed "Alert already generated")
    else if negb (checkSignatures requestId cleartexts proof)
    then Revert InvalidKMSSignatures
    else match abi_decode_uint32 cleartexts with
         | None => Revert AbiDecodeError
         | Some prediction =>
             Ok {|
               dataCount := dataCount s;
               sensorData := sensorData s;
               propagationModels := propagationModels s;
               airQualityAlerts :=
                 <[requestLocation s requestId :=
                     {| alertLevel := alertLevelOf prediction; isRevealed := true |}]>
                   (airQualityAlerts s);
               locationData := locationData s;
               requestToDataId := requestToDataId s;
               oracleRequests := oracleRequests s;
               events := events s ++ [AlertGenerated (requestLocation s requestId)]
             |}
         end.
Proof.
  unfold generateAlertCallback.
  destruct (requestLocation s requestId =? 0); cbn; [reflexivity|].
  destruct (isRevealed (alertAt s (requestLocation s requestId))); cbn; [reflexivity|].
  destruct (checkSignatures requestId cleartexts proof); reflexivity.
Qed.

Lemma generateAlertCallback_ok_inv s requestId (cleartexts proof : list byte) s' :
  generateAlertCallback requestId cleartexts proof s = Ok s' ->
  requestLocation s requestId <> 0 /\
  isRevealed (alertAt s (requestLocation s requestId)) = false /\
  checkSignatures requestId cleartexts proof = true /\
  exists prediction,
    abi_decode_uint32 cleartexts = Some prediction /\
    airQualityAlerts s' =
      <[requestLocation s requestId :=
          {| alertLevel := alertLevelOf prediction; isRevealed := true |}]>
        (airQualityAlerts s) /\
    propagationModels s' = propagationModels s /\
    locationData s' = locationData s /\
    sensorData s' = sensorData s /\
    requestToDataId s' = requestToDataId s.
Proof.
  rewrite generateAlertCallback_cases.
  destruct (N.eqb_spec (requestLocation s requestId) 0); [discriminate|].
  destruct (isRevealed _); [discriminate|].
  destruct (checkSignatures _ _ _); cbn; [|discriminate].
  destruct (abi_decode_uint32 cleartexts) as [prediction|]; [|discriminate].
  intros [= <-]. cbn. repeat split; try assumption.
  exists prediction. repeat split.
Qed.

(** C6: a callback whose [requestId] was never recorded, the zero key
    included, reverts with "Invalid request" and changes nothing. *)
Theorem generateAlertCallback_unknown_request
    s requestId (cleartexts proof : list byte) :
  requestToDataId s !! requestId = None ->
  generateAlertCallback requestId cleartexts proof s
    = Revert (RequireFailed "Invalid request") /\
  step s (GenerateAlertCallback requestId cleartexts proof) = s /\
  (forall loc, airQualityAlerts
                 (step s (GenerateAlertCallback requestId cleartexts proof)) !! loc
               = airQualityAlerts s !! loc).
Proof.
  intros Hnone.
  assert (E : generateAlertCallback requestId cleartexts proof s
              = Revert (RequireFailed "Invalid request")).
  { rewrite generateAlertCallback_cases. unfold requestLocation.
    rewrite Hnone. reflexivity. }
  rewrite (step_revert s (GenerateAlertCallback requestId cleartexts proof) _ E).
  auto.
Qed.

(** C7: a callback whose proof fails verification reverts, whatever the
    payload, so no alert level and no reveal flag of any location change. *)
Theorem generateAlertCallback_invalid_proof
    s requestId (cleartexts proof : list byte) :
  checkSignatures requestId cleartexts proof = false ->
  (exists e, generateAlertCallback requestId cleartexts proof s = Revert e) /\
  step s (GenerateAlertCallback requestId cleartexts proof) = s /\
  (forall loc,
     alertAt (step s (GenerateAlertCallback requestId cleartexts proof)) loc
     = alertAt s loc).
Proof.
  intros Hbad.
  assert (E : exists e, generateAlertCallback requestId cleartexts proof s = Revert e).
  { rewrite generateAlertCallback_cases, Hbad. cbn.
    destruct (requestLocation s requestId =? 0); [eauto|].
    destruct (isRevealed _); eauto. }
  destruct E as [e E].
  rewrite (step_revert s (GenerateAlertCallback requestId cleartexts proof) _ E).
  eauto.
Qed.

(** C5 (as the code orders the checks): the request lookup comes first,
    the duplicate-reveal check second and proof verification third, so a
    callback for an already revealed location reverts with "Alert already
    generated" whether or not its proof is valid. *)
Theorem generateAlertCallback_check_order
    s requestId (cleartexts proof : list byte) :
  (requestLocation s requestId = 0 ->
     generateAlertCallback requestId cleartexts proof s
       = Revert (RequireFailed "Invalid request")) /\
  (requestLocation s requestId <> 0 ->
   isRevealed (alertAt s (requestLocation s requestId)) = true ->
     generateAlertCallback requestId cleartexts proof s
       = Revert (RequireFailed "Alert already generated")) /\
  (requestLocation s requestId <> 0 ->
   isRevealed (alertAt s (requestLocation s requestId)) = false ->
   checkSignatures requestId cleartexts proof = false ->
     generateAlertCallback requestId cleartexts proof s
       = Revert InvalidKMSSignatures).
Proof.
  rewrite generateAlertCallback_cases. repeat split.
  - intros ->. reflexivity.
  - intros Hne ->.
    destruct (N.eqb_spec (requestLocation s requestId) 0); [contradiction|reflexivity].
  - intros Hne -> ->.
    destruct (N.eqb_spec (requestLocation s requestId) 0); [contradiction|reflexivity].
Qed.

(** ** Requesting disclosure *)

Lemma generateAirQualityAlert_cases s reqId loc :
  generateAirQualityAlert reqId loc s =
    if isComputed (modelAt s loc)
    then Ok {|
           dataCount := dataCount s;
           sensorData := sensorData s;
           propagationModels := propagationModels s;
           airQualityAlerts := airQualityAlerts s;
           locationData := locationData s;
           requestToDataId := <[reqId := loc]> (requestToDataId s);
           oracleRequests :=
             oracleRequests s ++ [(reqId, [encryptedPrediction (modelAt s loc)])];
           events := events s ++ [DecryptionRequested loc]
         |}
    else Revert (RequireFailed "Model not computed").
Proof.
  unfold generateAirQualityAlert. destruct (isComputed (modelAt s loc)); reflexivity.
Qed.

(** C8 (as the code behaves): [generateAirQualityAlert] reverts with
    "Model not computed" while the model is not computed; once it is, the
    call has no further guard, so two calls in a row both succeed, each
    sends the oracle its own request for the same prediction, and both
    request identifiers are recorded for the location. *)
Theorem generateAirQualityAlert_repeatable s loc (r1 r2 : N) :
  (isComputed (modelAt s loc) = false ->
     generateAirQualityAlert r1 loc s = Revert (RequireFailed "Model not computed")) /\
  (isComputed (modelAt s loc) = true ->
     exists s1 s2,
       generateAirQualityAlert r1 loc s = Ok s1 /\
       generateAirQualityAlert r2 loc s1 = Ok s2 /\
       oracleRequests s2 =
         oracleRequests s ++ [(r1, [encryptedPrediction (modelAt s loc)]);
                              (r2, [encryptedPrediction (modelAt s loc)])] /\
       requestLocation s2 r1 = loc /\ requestLocation s2 r2 = loc).
Proof.
  split.
  - intros Hc. rewrite generateAirQualityAlert_cases, Hc. reflexivity.
  - intros Hc. eexists. eexists.
    rewrite generateAirQualityAlert_cases, Hc.
    split; [reflexivity|].
    rewrite generateAirQualityAlert_cases.
    unfold modelAt in *; cbn. rewrite Hc.
    split; [reflexivity|]. cbn. rewrite <- app_assoc. cbn.
    split; [reflexivity|].
    unfold requestLocation; cbn. rewrite lookup_insert_eq.
    split; [|reflexivity].
    rewrite lookup_insert. case_decide; [reflexivity|].
    rewrite lookup_insert_eq. reflexivity.
Qed.

(** ** Uploading readings *)

Lemma uploadSensorData_cases s (a ts : N) (sm ws wd : euint32) loc :
  uploadSensorData a ts sm ws wd loc s =
    if dataCount s =? MAX_UINT256 then Revert ArithmeticOverflow
    else Ok {|
      dataCount := dataCount s + 1;
      sensorData :=
        <[dataCount s + 1 := {| agency := a;
                                encryptedSmokeLevel := sm;
                                encryptedWindSpeed := ws;
                                encryptedWindDirection := wd;
                                timestamp := ts;
                                locationId := loc |}]> (sensorData s);
      propagationModels :=
        <[loc := {| encryptedPrediction := asEuint32 0; isComputed := false |}]>
          (propagationModels s);
      airQualityAlerts :=
        <[loc := {| alertLevel := ""; isRevealed := false |}]> (airQualityAlerts s);
      locationData := <[loc := ledgerAt s loc ++ [dataCount s + 1]]> (locationData s);
      requestToDataId := requestToDataId s;
      oracleRequests := oracleRequests s;
      events := events s ++ [DataUploaded (dataCount s + 1) loc]
    |}.
Proof. reflexivity. Qed.

(** Every upload writes the zero model and the unset alert for its
    location, whatever was stored there. *)
Lemma uploadSensorData_reinitialises s (a ts : N) (sm ws wd : euint32) loc s' :
  uploadSensorData a ts sm ws wd loc s = Ok s' ->
  modelAt s' loc = {| encryptedPrediction := asEuint32 0; isComputed := false |} /\
  alertAt s' loc = {| alertLevel := ""; isRevealed := false |}.
Proof.
  rewrite uploadSensorData_cases.
  destruct (dataCount s =? MAX_UINT256); [discriminate|].
  intros [= <-]. unfold modelAt, alertAt; cbn.
  rewrite !lookup_insert_eq. split; reflexivity.
Qed.

(** [uploadSensorData] has no guard on the reading: whatever the location
    identifier, the call succeeds unless the reading counter is at its
    maximum; the new identifier goes to the end of the ledger of the
    reading's location, the other ledgers stay as they were, and the reading
    is stored under the new identifier with the location it was given. *)
Lemma uploadSensorData_accepts s (a ts : N) (sm ws wd : euint32) loc :
  dataCount s <> MAX_UINT256 ->
  exists s',
    uploadSensorData a ts sm ws wd loc s = Ok s' /\
    ledgerAt s' loc = ledgerAt s loc ++ [dataCount s + 1] /\
    (forall loc', loc' <> loc -> ledgerAt s' loc' = ledgerAt s loc') /\
    sensorDataAt s' (dataCount s + 1) =
      {| agency := a;
         encryptedSmokeLevel := sm;
         encryptedWindSpeed := ws;
         encryptedWindDirection := wd;
         timestamp := ts;
         locationId := loc |}.
Proof.
  intros Hmax. eexists. rewrite uploadSensorData_cases.
  destruct (N.eqb_spec (dataCount s) MAX_UINT256); [contradiction|].
  split; [reflexivity|]. unfold ledgerAt, sensorDataAt; cbn.
  rewrite !lookup_insert_eq. repeat split.
  intros loc' Hne. rewrite lookup_insert_ne by congruence. reflexivity.
Qed.

(** Calls other than an upload keep a set flag set. *)
Lemma flags_kept_unless_upload s c loc :
  (forall a ts sm ws wd, c <> UploadSensorData a ts sm ws wd loc) ->
  (isComputed (modelAt s loc) = true -> isComputed (modelAt (step s c) loc) = true) /\
  (isRevealed (alertAt s loc) = true -> isRevealed (alertAt (step s c) loc) = true).
Proof.
  intros Hc. unfold step.
  destruct (exec c s) as [s'|e] eqn:E; [|auto].
  destruct c as [a ts sm ws wd l|l|r l|r ct pf]; cbn in E.
  - assert (l <> loc) by (intros ->; eapply Hc; reflexivity).
    rewrite uploadSensorData_cases in E.
    destruct (dataCount s =? MAX_UINT256); [discriminate|].
    injection E as <-. unfold modelAt, alertAt; cbn.
    rewrite !lookup_insert_ne by assumption. auto.
  - destruct (computePropagationModel_ok_inv _ _ _ E)
      as (_ & _ & _ & _ & Ha & _ & Hset & Hother).
    split.
    + destruct (decide (loc = l)) as [->|Hne]; [auto|].
      rewrite (Hother loc Hne). auto.
    + unfold alertAt. rewrite Ha. auto.
  - rewrite generateAirQualityAlert_cases in E.
    destruct (isComputed (modelAt s l)); [|discriminate].
    injection E as <-. auto.
  - destruct (generateAlertCallback_ok_inv _ _ _ _ _ E)
      as (_ & _ & _ & p & _ & Ha & Hm & _).
    split.
    + unfold modelAt. rewrite Hm. auto.
    + unfold alertAt. rewrite Ha. rewrite lookup_insert.
      case_decide; [reflexivity|auto].
Qed.

(** ** The aggregation *)

Lemma fold_accumulate s (ids : list N) (a b d : euint32) :
  fold_left (accumulate s) ids (a, b, d) =
  (fold_left add (map encryptedSmokeLevel (map (sensorDataAt s) ids)) a,
   fold_left add (map encryptedWindSpeed (map (sensorDataAt s) ids)) b,
   fold_left add (map encryptedWindDirection (map (sensorDataAt s) ids)) d).
Proof.
  revert a b d. induction ids as [|id ids IH]; intros a b d; [reflexivity|].
  cbn [fold_left map]. unfold accumulate at 2. apply IH.
Qed.

Lemma computePropagationModel_success s loc :
  ledgerAt s loc <> [] -> isComputed (modelAt s loc) = false ->
  computePropagationModel loc s =
    Ok {|
      dataCount := dataCount s;
      sensorData := sensorData s;
      propagationModels :=
        <[loc := {| encryptedPrediction :=
                      mul (div (esum (map encryptedSmokeLevel (readingsAt s loc)))
                               (asEuint32 (uint32 (N.of_nat (length (ledgerAt s loc))))))
                          (div (esum (map encryptedWindSpeed (readingsAt s loc)))
                               (asEuint32 (uint32 (N.of_nat (length (ledgerAt s loc))))));
                    isComputed := true |}]> (propagationModels s);
      airQualityAlerts := airQualityAlerts s;
      locationData := locationData s;
      requestToDataId := requestToDataId s;
      oracleRequests := oracleRequests s;
      events := events s ++ [ModelComputed loc]
    |}.
Proof.
  intros Hne Hc. unfold computePropagationModel.
  rewrite (ledger_nonempty_length _ _ Hne), Hc. cbn [require negb bind].
  rewrite fold_accumulate. reflexivity.
Qed.

Lemma withWindDirection_readings g s loc :
  map encryptedSmokeLevel (readingsAt (withWindDirection g s) loc)
    = map encryptedSmokeLevel (readingsAt s loc) /\
  map encryptedWindSpeed (readingsAt (withWindDirection g s) loc)
    = map encryptedWindSpeed (readingsAt s loc).
Proof.
  unfold readingsAt, ledgerAt. cbn [locationData withWindDirection].
  rewrite !map_map.
  split; apply map_ext; intros id; unfold sensorDataAt; cbn;
    rewrite map_lookup_imap; destruct (sensorData s !! id); reflexivity.
Qed.

Lemma decrypt_fold_add (decrypt : euint32 -> N) (xs : list euint32) (a : euint32) :
  Homomorphic F decrypt -> decrypt a < UINT32_MOD ->
  decrypt (fold_left add xs a) = (decrypt a + total (map decrypt xs)) mod UINT32_MOD.
Proof.
  intros Hd. revert a.
  induction xs as [|x xs IH]; intros a Ha; cbn [fold_left map total fold_right].
  - rewrite N.add_0_r, N.mod_small; [reflexivity|exact Ha].
  - rewrite IH.
    + rewrite (decrypt_add _ _ Hd), N.Div0.add_mod_idemp_l, N.add_assoc. reflexivity.
    + rewrite (decrypt_add _ _ Hd). apply N.mod_lt. discriminate.
Qed.

Lemma decrypt_esum (decrypt : euint32 -> N) (xs : list euint32) :
  Homomorphic F decrypt ->
  decrypt (esum xs) = total (map decrypt xs) mod UINT32_MOD.
Proof.
  intros Hd. unfold esum. rewrite (decrypt_fold_add _ _ _ Hd).
  - rewrite (decrypt_asEuint32 _ _ Hd). reflexivity.
  - rewrite (decrypt_asEuint32 _ _ Hd). reflexivity.
Qed.

(** C2: for a location with a non-empty ledger of N readings whose model
    is not computed, [computePropagationModel] succeeds, sets [isComputed]
    and stores (sum of the smoke levels / N) * (sum of the wind speeds / N),
    computed with the library's operations over the readings of the ledger.
    Its cleartext is that product of truncated averages in [uint32]
    arithmetic, and exactly the integer product when nothing exceeds 32
    bits.  The stored value is the same whatever the wind directions of the
    readings are. *)
Theorem computePropagationModel_prediction
    (decrypt : euint32 -> N) s loc :
  Homomorphic F decrypt ->
  ledgerAt s loc <> [] ->
  isComputed (modelAt s loc) = false ->
  N.of_nat (length (ledgerAt s loc)) < UINT32_MOD ->
  let count := N.of_nat (length (ledgerAt s loc)) in
  let smokeLevels := map encryptedSmokeLevel (readingsAt s loc) in
  let windSpeeds := map encryptedWindSpeed (readingsAt s loc) in
  let prediction :=
    mul (div (esum smokeLevels) (asEuint32 count))
        (div (esum windSpeeds) (asEuint32 count)) in
  let smoke := total (map decrypt smokeLevels) in
  let wind := total (map decrypt windSpeeds) in
  (exists s', computePropagationModel loc s = Ok s' /\
     modelAt s' loc = {| encryptedPrediction := prediction; isComputed := true |}) /\
  (forall g, exists s',
     computePropagationModel loc (withWindDirection g s) = Ok s' /\
     modelAt s' loc = {| encryptedPrediction := prediction; isComputed := true |}) /\
  decrypt prediction =
    ((smoke mod UINT32_MOD / count) * (wind mod UINT32_MOD / count)) mod UINT32_MOD /\
  (smoke < UINT32_MOD -> wind < UINT32_MOD ->
   (smoke / count) * (wind / count) < UINT32_MOD ->
   decrypt prediction = (smoke / count) * (wind / count)).
Proof.
  intros Hd Hne Hc Hlt count smokeLevels windSpeeds prediction smoke wind.
  assert (Hcount : decrypt (asEuint32 count) = count).
  { rewrite (decrypt_asEuint32 _ _ Hd). apply N.mod_small. exact Hlt. }
  assert (Hpos : count <> 0).
  { unfold count. destruct (ledgerAt s loc); [congruence|]. cbn. lia. }
  assert (Hnum : decrypt prediction =
    ((smoke mod UINT32_MOD / count) * (wind mod UINT32_MOD / count)) mod UINT32_MOD).
  { unfold prediction.
    rewrite (decrypt_mul _ _ Hd), !(decrypt_div _ _ Hd) by (rewrite Hcount; exact Hpos).
    rewrite Hcount, !(decrypt_esum _ _ Hd). reflexivity. }
  split; [|split; [|split]].
  - eexists. split; [apply (computePropagationModel_success _ _ Hne Hc)|].
    unfold modelAt; cbn. rewrite lookup_insert_eq. cbn.
    unfold uint32. rewrite (N.mod_small _ _ Hlt). reflexivity.
  - intros g. eexists. split.
    + apply computePropagationModel_success; assumption.
    + unfold modelAt; cbn. rewrite lookup_insert_eq. cbn.
      destruct (withWindDirection_readings g s loc) as [-> ->].
      unfold ledgerAt; cbn. fold (ledgerAt s loc).
      unfold uint32. rewrite (N.mod_small _ _ Hlt). reflexivity.
  - exact Hnum.
  - intros Hs Hw Hp. rewrite Hnum.
    rewrite (N.mod_small _ _ Hs), (N.mod_small _ _ Hw).
    apply N.mod_small. exact Hp.
Qed.

(** ** Location zero *)

Lemma exec_keeps_zero_unrevealed s c s' :
  exec c s = Ok s' ->
  isRevealed (alertAt s 0) = false -> isRevealed (alertAt s' 0) = false.
Proof.
  intros E H0.
  destruct c as [a ts sm ws wd l|l|r l|r ct pf]; cbn in E.
  - rewrite uploadSensorData_cases in E.
    destruct (dataCount s =? MAX_UINT256); [discriminate|].
    injection E as <-. unfold alertAt; cbn.
    rewrite lookup_insert. case_decide; [reflexivity|exact H0].
  - destruct (computePropagationModel_ok_inv _ _ _ E) as (_ & _ & _ & _ & Ha & _).
    unfold alertAt. rewrite Ha. exact H0.
  - rewrite generateAirQualityAlert_cases in E.
    destruct (isComputed (modelAt s l)); [|discriminate].
    injection E as <-. exact H0.
  - destruct (generateAlertCallback_ok_inv _ _ _ _ _ E)
      as (Hne & _ & _ & p & _ & Ha & _).
    unfold alertAt. rewrite Ha, lookup_insert_ne by exact Hne. exact H0.
Qed.

Lemma zero_unrevealed s : reachable s -> isRevealed (alertAt s 0) = false.
Proof.
  revert s. apply reachable_ind'.
  - reflexivity.
  - intros s c s' _ IH E. exact (exec_keeps_zero_unrevealed _ _ _ E IH).
Qed.

(** C10: in every reachable state the alert of location 0 is not
    revealed and [getAirQualityAlert 0] reverts with "Not generated";
    every callback whose request maps to location 0 reverts with "Invalid
    request"; yet an upload tagged 0 is accepted (unless the reading
    counter is exhausted) and [computePropagationModel 0] and
    [generateAirQualityAlert 0] then succeed, recording the request for
    location 0. *)
Theorem location_zero_never_revealed s :
  reachable s ->
  isRevealed (alertAt s 0) = false /\
  getAirQualityAlert 0 s = Revert (RequireFailed "Not generated") /\
  (forall requestId (cleartexts proof : list byte),
     requestLocation s requestId = 0 ->
     generateAlertCallback requestId cleartexts proof s
       = Revert (RequireFailed "Invalid request")) /\
  (dataCount s <> MAX_UINT256 ->
   forall (a ts : N) (sm ws wd : euint32) reqId,
   exists s1 s2 s3,
     uploadSensorData a ts sm ws wd 0 s = Ok s1 /\
     computePropagationModel 0 s1 = Ok s2 /\
     generateAirQualityAlert reqId 0 s2 = Ok s3 /\
     requestLocation s3 reqId = 0 /\
     reachable s3).
Proof.
  intros Hr. pose proof (zero_unrevealed s Hr) as H0.
  split; [exact H0|]. split; [|split].
  - unfold getAirQualityAlert. rewrite H0. reflexivity.
  - intros requestId cleartexts proof Hz.
    rewrite generateAlertCallback_cases, Hz. reflexivity.
  - intros Hmax a ts sm ws wd reqId.
    assert (E1 : exists s1, uploadSensorData a ts sm ws wd 0 s = Ok s1 /\
                            ledgerAt s1 0 <> [] /\ isComputed (modelAt s1 0) = false).
    { eexists. rewrite uploadSensorData_cases.
      destruct (N.eqb_spec (dataCount s) MAX_UINT256); [contradiction|].
      split; [reflexivity|]. unfold ledgerAt, modelAt; cbn.
      rewrite !lookup_insert_eq. cbn. split; [|reflexivity].
      destruct (default [] (locationData s !! 0)); discriminate. }
    destruct E1 as (s1 & E1 & Hne & Hc).
    pose proof (computePropagationModel_success s1 0 Hne Hc) as E2.
    set (s2 := {| dataCount := dataCount s1 |}) in E2.
    assert (Hc2 : isComputed (modelAt s2 0) = true).
    { unfold modelAt, s2; cbn. rewrite lookup_insert_eq. reflexivity. }
    pose proof (generateAirQualityAlert_cases s2 reqId 0) as E3.
    rewrite Hc2 in E3.
    set (s3 := {| dataCount := dataCount s2 |}) in E3.
    exists s1, s2, s3. repeat split; try assumption.
    + unfold requestLocation, s3; cbn. rewrite lookup_insert_eq. reflexivity.
    + rewrite <- (step_ok s2 (GenerateAirQualityAlert reqId 0) s3 E3).
      apply reachable_step.
      rewrite <- (step_ok s1 (ComputePropagationModel 0) s2 E2).
      apply reachable_step.
      rewrite <- (step_ok s (UploadSensorData a ts sm ws wd 0) s1 E1).
      apply reachable_step. exact Hr.
Qed.

(** ** Invariants of reachable states *)

Lemma exec_keeps_ledgers_consistent s c s' :
  exec c s = Ok s' -> ledgers_consistent s -> ledgers_consistent s'.
Proof.
  intros E IH.
  destruct c as [a ts sm ws wd l|l|r l|r ct pf]; cbn in E.
  - rewrite uploadSensorData_cases in E.
    destruct (N.eqb_spec (dataCount s) MAX_UINT256); [discriminate|].
    injection E as <-. intros loc id. unfold ledgerAt, sensorDataAt; cbn.
    rewrite (lookup_insert (locationData s)). case_decide as Hl.
    + subst l. cbn. fold (ledgerAt s loc). rewrite in_app_iff. cbn.
      intros [Hin|[<-|[]]].
      * destruct (IH loc id Hin) as [Hb Hloc].
        rewrite lookup_insert_ne by lia. split; [lia|exact Hloc].
      * rewrite lookup_insert_eq. cbn. split; [lia|reflexivity].
    + intros Hin. destruct (IH loc id Hin) as [Hb Hloc].
      rewrite lookup_insert_ne by lia. split; [lia|exact Hloc].
  - destruct (computePropagationModel_ok_inv _ _ _ E) as (Hne & Hc & _).
    rewrite (computePropagationModel_success _ _ Hne Hc) in E.
    injection E as <-. exact IH.
  - rewrite generateAirQualityAlert_cases in E.
    destruct (isComputed (modelAt s l)); [|discriminate].
    injection E as <-. exact IH.
  - rewrite generateAlertCallback_cases in E.
    destruct (requestLocation s r =? 0); [discriminate|].
    destruct (isRevealed _); [discriminate|].
    destruct (negb _); [discriminate|].
    destruct (abi_decode_uint32 ct); [|discriminate].
    injection E as <-. exact IH.
Qed.

Lemma reachable_ledgers_consistent s : reachable s -> ledgers_consistent s.
Proof.
  revert s. apply reachable_ind'.
  - intros loc id []. 
  - intros s c s' _ IH E. exact (exec_keeps_ledgers_consistent _ _ _ E IH).
Qed.

(** A request identifier is on record only if [generateAirQualityAlert]
    recorded it. *)
Lemma recorded_requests_were_issued (calls : list Call) requestId loc :
  requestToDataId (run calls init) !! requestId = Some loc ->
  In (GenerateAirQualityAlert requestId loc) calls.
Proof.
  induction calls as [|c calls IH] using rev_ind.
  - cbn. rewrite lookup_empty. discriminate.
  - rewrite run_app. cbn [run fold_left]. fold (run calls init).
    rewrite in_app_iff. unfold step.
    destruct (exec c (run calls init)) as [s'|e] eqn:E; [|auto].
    destruct c as [a ts sm ws wd l|l|r l|r ct pf]; cbn in E.
    + rewrite uploadSensorData_cases in E.
      destruct (dataCount _ =? MAX_UINT256); [discriminate|].
      injection E as <-. cbn. auto.
    + destruct (computePropagationModel_ok_inv _ _ _ E) as (_ & _ & _ & _ & _ & -> & _).
      auto.
    + rewrite generateAirQualityAlert_cases in E.
      destruct (isComputed _); [|discriminate].
      injection E as <-. cbn. rewrite lookup_insert. case_decide as Hr.
      * intros [= <-]. subst r. right. left. reflexivity.
      * auto.
    + destruct (generateAlertCallback_ok_inv _ _ _ _ _ E)
        as (_ & _ & _ & p & _ & _ & _ & _ & _ & ->).
      auto.
Qed.

Lemma never_issued_is_unknown (calls : list Call) requestId :
  (forall loc, ~ In (GenerateAirQualityAlert requestId loc) calls) ->
  requestToDataId (run calls init) !! requestId = None.
Proof.
  intros Hnever.
  destruct (requestToDataId (run calls init) !! requestId) as [loc|] eqn:E;
    [|reflexivity].
  destruct (Hnever loc (recorded_requests_were_issued _ _ _ E)).
Qed.

End Properties.


(** * The plaintext double keeps the library's promises *)

Lemma plain_homomorphic : FHE.Homomorphic Plain plain_decrypt.
Proof.
  split; unfold plain_decrypt; cbn; try reflexivity.
  intros a b Hb. unfold plain_div.
  destruct (N.eqb_spec b 0); [contradiction|reflexivity].
Qed.

(** * Concrete runs *)

Section Runs.
#[local] Existing Instance Plain.
Import Scenario.

(** The two scenarios of the specification. *)
Example three_readings_yield_40 :
  modelAt (step threeReadings (ComputePropagationModel 1)) 1
    = {| encryptedPrediction := 40; isComputed := true |} /\
  getAirQualityAlert 1 revealed = Ok "Good"%string.
Proof. vm_compute. split; reflexivity. Qed.

Example single_reading_yields_9000 :
  let s := run [ComputePropagationModel 2; GenerateAirQualityAlert 9 2;
                GenerateAlertCallback 9 (abi_encode_uint32 9000) validProof]
               singleReading in
  modelAt s 2 = {| encryptedPrediction := 9000; isComputed := true |} /\
  getAirQualityAlert 2 s = Ok "Hazardous"%string.
Proof. vm_compute. split; reflexivity. Qed.

Example abi_roundtrip_40 : abi_decode_uint32 (abi_encode_uint32 40) = Some 40.
Proof. reflexivity. Qed.

(** C1: the flags do not stay set.  Location 1 is computed (prediction 40)
    and revealed ("Good"); one more upload for location 1 puts back the
    zero model and the unset alert, so both flags read false again and the
    prediction and the alert level are gone; a second computation then
    succeeds and stores another prediction. *)
Theorem upload_resets_model_and_alert :
  modelAt revealed 1 = {| encryptedPrediction := 40; isComputed := true |} /\
  alertAt revealed 1 = {| alertLevel := "Good"; isRevealed := true |} /\
  modelAt (step revealed (upload 80 30 1)) 1
    = {| encryptedPrediction := 0; isComputed := false |} /\
  alertAt (step revealed (upload 80 30 1)) 1
    = {| alertLevel := ""; isRevealed := false |} /\
  modelAt (run [upload 80 30 1; ComputePropagationModel 1] revealed) 1
    = {| encryptedPrediction := 345; isComputed := true |}.
Proof. vm_compute. repeat split. Qed.

(** C5, counterexample: request 5 is known, its location 1 is already
    revealed and the proof is forged; the callback reverts with "Alert
    already generated", not with the proof error. *)
Lemma callback_order_counterexample :
  requestLocation revealed 5 = 1 /\
  isRevealed (alertAt revealed 1) = true /\
  FHE.checkSignatures 5 (abi_encode_uint32 40) forgedProof = false /\
  generateAlertCallback 5 (abi_encode_uint32 40) forgedProof revealed
    = Revert (RequireFailed "Alert already generated") /\
  generateAlertCallback 5 (abi_encode_uint32 40) forgedProof revealed
    <> Revert InvalidKMSSignatures.
Proof. vm_compute. repeat split. discriminate. Qed.

(** C8, counterexample: two requests in a row for the computed location 1
    both succeed, and the oracle has been sent two requests. *)
Lemma generateAirQualityAlert_twice_counterexample :
  isComputed (modelAt computed 1) = true /\
  exists s1 s2,
    generateAirQualityAlert 5 1 computed = Ok s1 /\
    generateAirQualityAlert 6 1 s1 = Ok s2 /\
    oracleRequests computed = [] /\
    oracleRequests s2 = [(5, [40]); (6, [40])] /\
    requestLocation s2 5 = 1 /\ requestLocation s2 6 = 1.
Proof.
  split; [reflexivity|].
  eexists. eexists. split; [vm_compute; reflexivity|].
  split; [vm_compute; reflexivity|]. vm_compute. repeat split.
Qed.

(** C9: a reading with location identifier 0 is not rejected.  The upload
    succeeds and the reading is stored, tagged 0, in the ledger of location
    0; the location is then computed and its disclosure requested under
    identifier 3, but the callback for that request, with a valid proof,
    reverts with "Invalid request" because 0 is what it reads for an unknown
    request, and [getAirQualityAlert 0] reverts. *)
Theorem zero_location_accepted_never_revealed :
  exists s1,
    uploadSensorData agencyA 1700000000 5 5 90 0 init = Ok s1 /\
    ledgerAt s1 0 = [1] /\
    locationId (sensorDataAt s1 1) = 0 /\
    run [ComputePropagationModel 0; GenerateAirQualityAlert 3 0] s1 = zeroRequested /\
    isComputed (modelAt zeroRequested 0) = true /\
    requestToDataId zeroRequested !! 3 = Some 0 /\
    FHE.checkSignatures 3 (abi_encode_uint32 25) validProof = true /\
    generateAlertCallback 3 (abi_encode_uint32 25) validProof zeroRequested
      = Revert (RequireFailed "Invalid request") /\
    getAirQualityAlert 0 zeroRequested = Revert (RequireFailed "Not generated").
Proof.
  eexists. split; [vm_compute; reflexivity|]. vm_compute. repeat split.
Qed.

(** ** The general theorems at concrete inputs *)

Lemma computePropagationModel_prediction_witness :
  FHE.Homomorphic Plain plain_decrypt /\
  ledgerAt threeReadings 1 <> [] /\
  isComputed (modelAt threeReadings 1) = false /\
  N.of_nat (length (ledgerAt threeReadings 1)) < UINT32_MOD /\
  exists s', computePropagationModel 1 threeReadings = Ok s' /\
    modelAt s' 1 = {| encryptedPrediction := 40; isComputed := true |}.
Proof.
  assert (H1 : ledgerAt threeReadings 1 <> []) by (vm_compute; discriminate).
  assert (H2 : isComputed (modelAt threeReadings 1) = false) by reflexivity.
  assert (H3 : N.of_nat (length (ledgerAt threeReadings 1)) < UINT32_MOD)
    by (vm_compute; reflexivity).
  split; [exact plain_homomorphic|].
  split; [exact H1|]. split; [exact H2|]. split; [exact H3|].
  destruct (computePropagationModel_prediction (F:=Plain)
              plain_decrypt threeReadings 1 plain_homomorphic H1 H2 H3)
    as [(s' & E & M) _].
  exists s'. split; [exact E|]. rewrite M. vm_compute. reflexivity.
Defined.

Lemma generateAlertCallback_unknown_request_witness :
  requestToDataId requested !! 0 = None /\
  generateAlertCallback 0 (abi_encode_uint32 40) validProof requested
    = Revert (RequireFailed "Invalid request") /\
  step requested (GenerateAlertCallback 0 (abi_encode_uint32 40) validProof)
    = requested.
Proof.
  assert (H : requestToDataId requested !! 0 = None) by reflexivity.
  split; [exact H|].
  destruct (generateAlertCallback_unknown_request
              requested 0 (abi_encode_uint32 40) validProof H) as (E & S & _).
  split; [exact E|exact S].
Defined.

Lemma generateAlertCallback_invalid_proof_witness :
  FHE.checkSignatures 5 (abi_encode_uint32 40) forgedProof = false /\
  (exists e, generateAlertCallback 5 (abi_encode_uint32 40) forgedProof requested
             = Revert e) /\
  alertAt (step requested (GenerateAlertCallback 5 (abi_encode_uint32 40) forgedProof)) 1
    = alertAt requested 1.
Proof.
  assert (H : FHE.checkSignatures 5 (abi_encode_uint32 40) forgedProof = false)
    by reflexivity.
  split; [exact H|].
  destruct (generateAlertCallback_invalid_proof
              requested 5 (abi_encode_uint32 40) forgedProof H) as (E & _ & A).
  split; [exact E|exact (A 1)].
Defined.

Lemma location_zero_never_revealed_witness :
  reachable zeroRequested /\
  requestLocation zeroRequested 3 = 0 /\
  isRevealed (alertAt zeroRequested 0) = false /\
  getAirQualityAlert 0 zeroRequested = Revert (RequireFailed "Not generated") /\
  generateAlertCallback 3 (abi_encode_uint32 25) validProof zeroRequested
    = Revert (RequireFailed "Invalid request").
Proof.
  assert (H : reachable zeroRequested) by (exists zeroCalls; reflexivity).
  split; [exact H|]. split; [reflexivity|].
  destruct (location_zero_never_revealed zeroRequested H) as (R & G & C & _).
  split; [exact R|]. split; [exact G|].
  apply C. reflexivity.
Defined.

Lemma computePropagationModel_rejects_witness :
  (ledgerAt init 1 = [] /\
   computePropagationModel 1 init = Revert (RequireFailed "No data for location")) /\
  (isComputed (modelAt computed 1) = true /\
   step computed (ComputePropagationModel 1) = computed) /\
  (computePropagationModel 1 threeReadings = Ok computed /\
   computePropagationModel 1 computed = Revert (RequireFailed "Already computed") /\
   encryptedPrediction (modelAt (step computed (ComputePropagationModel 1)) 1) = 40).
Proof.
  assert (H1 : ledgerAt (F:=Plain) init 1 = []) by reflexivity.
  assert (H2 : isComputed (modelAt computed 1) = true) by reflexivity.
  assert (H3 : computePropagationModel 1 threeReadings = Ok computed)
    by (vm_compute; reflexivity).
  destruct (computePropagationModel_rejects (F:=Plain) init 1) as (A & _ & _).
  destruct (computePropagationModel_rejects computed 1) as (_ & B & _).
  destruct (computePropagationModel_rejects threeReadings 1) as (_ & _ & C).
  destruct (A H1) as (A1 & _). destruct (B H2) as (_ & B2).
  destruct (C computed H3) as (C1 & _ & C3).
  split; [split; [exact H1|exact A1]|].
  split; [split; [exact H2|exact B2]|].
  split; [exact H3|]. split; [exact C1|].
  rewrite C3. reflexivity.
Defined.

Lemma generateAlertCallback_check_order_witness :
  (requestLocation requested 0 = 0 /\
   generateAlertCallback 0 (abi_encode_uint32 40) validProof requested
     = Revert (RequireFailed "Invalid request")) /\
  (requestLocation revealed 5 = 1 /\ isRevealed (alertAt revealed 1) = true /\
   generateAlertCallback 5 (abi_encode_uint32 40) forgedProof revealed
     = Revert (RequireFailed "Alert already generated")) /\
  (isRevealed (alertAt requested 1) = false /\
   FHE.checkSignatures 5 (abi_encode_uint32 40) forgedProof = false /\
   generateAlertCallback 5 (abi_encode_uint32 40) forgedProof requested
     = Revert InvalidKMSSignatures).
Proof.
  destruct (generateAlertCallback_check_order
              requested 0 (abi_encode_uint32 40) validProof) as (A & _ & _).
  destruct (generateAlertCallback_check_order
              revealed 5 (abi_encode_uint32 40) forgedProof) as (_ & B & _).
  destruct (generateAlertCallback_check_order
              requested 5 (abi_encode_uint32 40) forgedProof) as (_ & _ & C).
  split; [split; [reflexivity|apply A; reflexivity]|].
  split; [split; [reflexivity|split; [reflexivity|]]|].
  - apply B; [vm_compute; discriminate|reflexivity].
  - split; [reflexivity|split; [reflexivity|]].
    apply C; [vm_compute; discriminate|reflexivity|reflexivity].
Defined.

Lemma generateAirQualityAlert_repeatable_witness :
  (isComputed (modelAt threeReadings 1) = false /\
   generateAirQualityAlert 5 1 threeReadings
     = Revert (RequireFailed "Model not computed")) /\
  (isComputed (modelAt computed 1) = true /\
   exists s1 s2,
     generateAirQualityAlert 5 1 computed = Ok s1 /\
     generateAirQualityAlert 6 1 s1 = Ok s2 /\
     length (oracleRequests s2) = (length (oracleRequests computed) + 2)%nat).
Proof.
  destruct (generateAirQualityAlert_repeatable threeReadings 1 5 6) as (A & _).
  destruct (generateAirQualityAlert_repeatable computed 1 5 6) as (_ & B).
  split; [split; [reflexivity|apply A; reflexivity]|].
  split; [reflexivity|].
  destruct (B eq_refl) as (s1 & s2 & E1 & E2 & R & _).
  exists s1, s2. split; [exact E1|]. split; [exact E2|].
  rewrite R, length_app. reflexivity.
Defined.

Lemma alertLevelOf_bands_witness :
  (5000 < 6200 <= 8000 /\ alertLevelOf 6200 = "Very Unhealthy"%string) /\
  (900 <= 6200 /\ (severity (alertLevelOf 900) <= severity (alertLevelOf 6200))%nat).
Proof.
  destruct (alertLevelOf_bands 6200) as (_ & B & _ & _ & _ & _ & M & _).
  assert (H1 : 5000 < 6200 <= 8000) by lia.
  assert (H2 : 900 <= 6200) by lia.
  split; [split; [exact H1|exact (B H1)]|split; [exact H2|exact (M 900 H2)]].
Defined.

End Runs.

(** * Invariants of the store *)

(** Case analysis on a successful call: the hypothesis [E : exec c s = Ok s']
    is replaced by the guards that held and [s'] by the state written. *)
Ltac invert_exec E c s :=
  destruct c as [a ts sm ws wd l | l | r l | r ct pf]; cbn [exec] in E;
  [ rewrite uploadSensorData_cases in E;
    destruct (N.eqb_spec (dataCount s) MAX_UINT256) as [Hmax|Hmax];
    [discriminate E|]; injection E as <-
  | destruct (computePropagationModel_ok_inv _ _ _ E) as (Hne & Hc & _);
    rewrite (computePropagationModel_success _ _ Hne Hc) in E; injection E as <-
  | rewrite generateAirQualityAlert_cases in E;
    destruct (isComputed (modelAt s l)) eqn:Hc; [|discriminate E];
    injection E as <-
  | rewrite generateAlertCallback_cases in E;
    destruct (N.eqb_spec (requestLocation s r) 0) as [Hz|Hz]; [discriminate E|];
    destruct (isRevealed (alertAt s (requestLocation s r))) eqn:Hrev;
    [discriminate E|];
    destruct (FHE.checkSignatures r ct pf) eqn:Hsig; [|discriminate E];
    destruct (abi_decode_uint32 ct) as [v|] eqn:Hdec; [|discriminate E];
    cbn [negb] in E; injection E as <- ].

Lemma StronglySorted_snoc (l : list N) (x : N) :
  StronglySorted N.lt l -> Forall (fun y => y < x) l ->
  StronglySorted N.lt (l ++ [x]).
Proof.
  induction l as [|y l IH]; intros Hs Hall; cbn.
  - constructor; constructor.
  - apply StronglySorted_inv in Hs. destruct Hs as [Hs Hy].
    apply Forall_cons_iff in Hall. destruct Hall as [Hyx Hall].
    constructor; [apply IH; assumption|].
    apply Forall_app. split; [exact Hy|]. constructor; [exact Hyx|constructor].
Qed.

Section Invariants.
Context {F : FHE.Scheme}.
Import FHE.

Implicit Types (s : State) (loc requestId reqId : N) (c : Call).

Lemma exec_keeps_store_invariant s c s' :
  exec c s = Ok s' -> store_invariant s -> store_invariant s'.
Proof.
  intros E (Ha & Hb & Hs).
  invert_exec E c s; try (split; [|split]; assumption).
  unfold store_invariant, ledgerAt, sensorDataAt in *. cbn. split; [|split].
  - intros id. rewrite lookup_insert. case_decide as Hid.
    + subst id. split; [lia|eauto].
    + rewrite Ha. lia.
  - intros loc id. rewrite (lookup_insert (locationData s)).
    rewrite (lookup_insert (sensorData s)).
    case_decide as Hl; case_decide as Hid; cbn.
    + subst l id. rewrite in_app_iff. cbn. split; [lia|auto].
    + subst l. rewrite in_app_iff, Hb. cbn. split.
      * intros [H|[H|[]]]; [split; [lia|tauto]|congruence].
      * intros [H1 H2]. left. split; [lia|exact H2].
    + subst id. split.
      * intros H. apply Hb in H. lia.
      * intros [_ H]. congruence.
    + rewrite Hb. split; intros [H1 H2]; (split; [lia|exact H2]).
  - intros loc. rewrite (lookup_insert (locationData s)). case_decide as Hl; cbn.
    + subst l. apply StronglySorted_snoc; [apply Hs|].
      apply List.Forall_forall. intros y Hy. apply Hb in Hy. lia.
    + apply Hs.
Qed.

Lemma reachable_store_invariant s : reachable s -> store_invariant s.
Proof.
  revert s. apply reachable_ind'.
  - unfold store_invariant, ledgerAt, sensorDataAt. cbn. split; [|split].
    + intros id. rewrite lookup_empty. split; [intros [x Hx]; discriminate|lia].
    + intros loc id. rewrite lookup_empty. cbn. split; [tauto|lia].
    + intros loc. rewrite lookup_empty. constructor.
  - intros s c s' _ IH E. exact (exec_keeps_store_invariant _ _ _ E IH).
Qed.

Lemma StronglySorted_lt_NoDup (l : list N) : StronglySorted N.lt l -> NoDup l.
Proof.
  induction l as [|x l IH]; intros Hs; [constructor|].
  apply StronglySorted_inv in Hs. destruct Hs as [Hs Hx].
  constructor; [|apply IH; exact Hs].
  intros Hin. apply list_elem_of_In in Hin.
  rewrite List.Forall_forall in Hx. specialize (Hx x Hin). lia.
Qed.

(** X1: in a reachable state a ledger holds exactly the identifiers of the
    stored readings tagged with its location, so an identifier is in one
    ledger only. *)
Theorem reading_in_its_ledger_only s loc id :
  reachable s ->
  (In id (ledgerAt s loc) <->
     1 <= id <= dataCount s /\ locationId (sensorDataAt s id) = loc) /\
  (forall loc', In id (ledgerAt s loc) -> In id (ledgerAt s loc') -> loc' = loc).
Proof.
  intros Hr. destruct (reachable_store_invariant s Hr) as (_ & Hb & _).
  split; [apply Hb|].
  intros loc' H1 H2. apply Hb in H1. apply Hb in H2.
  destruct H1 as [_ <-]. destruct H2 as [_ <-]. reflexivity.
Qed.

(** X2: in a reachable state every ledger lists its identifiers in
    strictly increasing order, hence in upload order and without
    repetition. *)
Theorem ledger_strictly_increasing s loc :
  reachable s ->
  StronglySorted N.lt (ledgerAt s loc) /\ NoDup (ledgerAt s loc).
Proof.
  intros Hr. destruct (reachable_store_invariant s Hr) as (_ & _ & Hs).
  split; [apply Hs|apply StronglySorted_lt_NoDup, Hs].
Qed.

(** X3: in a reachable state [sensorData] has an entry exactly for the
    identifiers 1 to [dataCount]; identifier 0 and anything above the
    counter read as the zero record. *)
Theorem sensorData_keys s id :
  reachable s ->
  (is_Some (sensorData s !! id) <-> 1 <= id <= dataCount s) /\
  (id = 0 \/ dataCount s < id -> sensorDataAt s id = zeroSensorData).
Proof.
  intros Hr. destruct (reachable_store_invariant s Hr) as (Ha & _ & _).
  split; [apply Ha|].
  intros Hout. unfold sensorDataAt.
  destruct (sensorData s !! id) as [d|] eqn:E; [|reflexivity].
  assert (Hs : is_Some (sensorData s !! id)) by (rewrite E; eauto).
  apply Ha in Hs. lia.
Qed.

Lemma step_append_only s c :
  store_invariant s ->
  (forall id d, sensorData s !! id = Some d -> sensorData (step s c) !! id = Some d) /\
  (forall loc, exists suffix, ledgerAt (step s c) loc = ledgerAt s loc ++ suffix) /\
  dataCount s <= dataCount (step s c).
Proof.
  intros (Ha & _ & _).
  assert (Hsame : (forall id d, sensorData s !! id = Some d -> sensorData s !! id = Some d) /\
                  (forall loc, exists suffix, ledgerAt s loc = ledgerAt s loc ++ suffix) /\
                  dataCount s <= dataCount s).
  { split; [auto|]. split; [|lia]. intros loc. exists []. rewrite app_nil_r. reflexivity. }
  unfold step. destruct (exec c s) as [s'|e] eqn:E; [|exact Hsame].
  invert_exec E c s; try exact Hsame.
  unfold ledgerAt. cbn. split; [|split; [|lia]].
  - intros id d Hid. rewrite lookup_insert_ne; [exact Hid|].
    intros <-. assert (Hs : is_Some (sensorData s !! (dataCount s + 1))) by eauto.
    apply Ha in Hs. lia.
  - intros loc. rewrite lookup_insert. case_decide as Hl.
    + subst l. cbn. eexists. reflexivity.
    + exists []. rewrite app_nil_r. reflexivity.
Qed.

(** X4: readings and ledgers are append-only.  From a reachable state, no
    sequence of calls changes or removes a stored reading, a ledger only
    gains identifiers at its end, and the counter never goes down. *)
Theorem readings_and_ledgers_append_only (calls : list Call) s :
  reachable s ->
  (forall id d, sensorData s !! id = Some d ->
                sensorData (run calls s) !! id = Some d) /\
  (forall loc, exists suffix, ledgerAt (run calls s) loc = ledgerAt s loc ++ suffix) /\
  dataCount s <= dataCount (run calls s).
Proof.
  revert s. induction calls as [|c calls IH]; intros s Hr.
  - cbn. split; [auto|]. split; [|lia].
    intros loc. exists []. rewrite app_nil_r. reflexivity.
  - cbn [run fold_left]. fold (run calls (step s c)).
    destruct (step_append_only s c (reachable_store_invariant s Hr)) as (A1 & A2 & A3).
    destruct (IH (step s c) (reachable_step s c Hr)) as (B1 & B2 & B3).
    split; [|split; [|lia]].
    + intros id d Hid. apply B1, A1, Hid.
    + intros loc. destruct (A2 loc) as [x Hx]. destruct (B2 loc) as [y Hy].
      exists (x ++ y). rewrite Hy, Hx, app_assoc. reflexivity.
Qed.

Lemma uploadedIds_app loc (log1 log2 : list Event) :
  uploadedIds loc (log1 ++ log2) = uploadedIds loc log1 ++ uploadedIds loc log2.
Proof. unfold uploadedIds. apply flat_map_app. Qed.

(** X5: the event log accounts for the ledgers.  In a reachable state the
    ledger of a location is the list of identifiers its [DataUploaded]
    events announced, in order, and [getLocationDataCount] returns their
    number. *)
Theorem ledger_matches_events s loc :
  reachable s ->
  ledgerAt s loc = uploadedIds loc (events s) /\
  getLocationDataCount loc s = Ok (N.of_nat (length (uploadedIds loc (events s)))).
Proof.
  intros Hr.
  assert (H : ledgerAt s loc = uploadedIds loc (events s)).
  { revert s Hr. apply reachable_ind'; [reflexivity|].
    intros s c s' _ IH E.
    invert_exec E c s; unfold ledgerAt in *; cbn [events locationData];
      rewrite uploadedIds_app; cbn; rewrite ?app_nil_r; try exact IH.
    rewrite lookup_insert. destruct (N.eqb_spec l loc) as [->|Hl].
    - rewrite decide_True by reflexivity. cbn. rewrite IH. reflexivity.
    - rewrite decide_False by exact Hl. rewrite app_nil_r. exact IH. }
  split; [exact H|]. unfold getLocationDataCount. rewrite H. reflexivity.
Qed.

(** ** Alerts and models *)

Lemma alertLevelOf_label (v : N) : In (alertLevelOf v) alertLabels.
Proof.
  unfold alertLevelOf, alertLabels.
  destruct (8000 <? v); [cbn; tauto|]. destruct (5000 <? v); [cbn; tauto|].
  destruct (3000 <? v); [cbn; tauto|]. destruct (1000 <? v); cbn; tauto.
Qed.

Lemma reachable_alert_settled s loc : reachable s -> alert_settled (alertAt s loc).
Proof.
  intros Hr. revert s Hr loc. apply (reachable_ind' (fun s => forall loc, _)).
  - intros loc. left. reflexivity.
  - intros s c s' _ IH E loc.
    invert_exec E c s; unfold alertAt in *; cbn; try apply IH.
    + rewrite lookup_insert. case_decide; [left; reflexivity|apply IH].
    + rewrite lookup_insert. case_decide; [right; exists v; reflexivity|apply IH].
Qed.

(** X6: in a reachable state an alert is either unset (empty level, not
    revealed) or revealed with one of the five labels; whatever
    [getAirQualityAlert] returns is one of the five labels. *)
Theorem getAirQualityAlert_label s loc :
  reachable s ->
  (isRevealed (alertAt s loc) = false -> alertLevel (alertAt s loc) = ""%string) /\
  (isRevealed (alertAt s loc) = true -> In (alertLevel (alertAt s loc)) alertLabels) /\
  (forall level, getAirQualityAlert loc s = Ok level -> In level alertLabels).
Proof.
  intros Hr. pose proof (reachable_alert_settled s loc Hr) as Hs.
  unfold getAirQualityAlert.
  destruct Hs as [->|[v ->]]; cbn.
  - split; [reflexivity|]. split; [discriminate|]. intros level. discriminate.
  - split; [discriminate|]. split; [intros _; apply alertLevelOf_label|].
    intros level [= <-]. apply alertLevelOf_label.
Qed.

Lemma requestLocation_nonzero s r :
  requestLocation s r <> 0 -> requestToDataId s !! r = Some (requestLocation s r).
Proof.
  unfold requestLocation. destruct (requestToDataId s !! r); cbn; congruence.
Qed.

Lemma reachable_empty_locations_untouched s :
  reachable s -> empty_locations_untouched s.
Proof.
  revert s. apply reachable_ind'.
  - intros loc _. cbn. rewrite !lookup_empty. repeat split. intros r.
    rewrite lookup_empty. discriminate.
  - intros s c s' _ IH E loc.
    invert_exec E c s; unfold ledgerAt in *; cbn.
    + rewrite (lookup_insert (locationData s)). case_decide as Hl.
      * cbn. intros H. destruct (default [] (locationData s !! l)); discriminate.
      * intros H. rewrite !lookup_insert_ne by exact Hl. apply IH, H.
    + intros H. destruct (IH loc H) as (A & B & C).
      rewrite lookup_insert_ne; [auto|]. intros ->. contradiction.
    + intros H. destruct (IH loc H) as (A & B & C).
      split; [exact A|]. split; [exact B|].
      intros r'. rewrite lookup_insert. case_decide; [|apply C].
      intros [= ->]. unfold modelAt in Hc. rewrite A in Hc. discriminate.
    + intros H. destruct (IH loc H) as (A & B & C).
      split; [exact A|]. split; [|exact C].
      rewrite lookup_insert_ne; [exact B|].
      intros Heq. apply (C r). rewrite <- Heq.
      apply requestLocation_nonzero, Hz.
Qed.

(** X7: nothing can be done for a location that received no reading.  In a
    reachable state such a location has the zero model and the unset alert,
    no request identifier is recorded for it, and computing, requesting
    disclosure and both getters revert; a computed model therefore always
    has a non-empty ledger behind it. *)
Theorem location_without_readings s loc :
  reachable s ->
  ledgerAt s loc = [] ->
  modelAt s loc = zeroModel /\
  alertAt s loc = zeroAlert /\
  (forall r, requestToDataId s !! r <> Some loc) /\
  computePropagationModel loc s = Revert (RequireFailed "No data for location") /\
  (forall reqId, generateAirQualityAlert reqId loc s
                 = Revert (RequireFailed "Model not computed")) /\
  getEncryptedModel loc s = Revert (RequireFailed "Not computed") /\
  getAirQualityAlert loc s = Revert (RequireFailed "Not generated").
Proof.
  intros Hr Hl.
  destruct (reachable_empty_locations_untouched s Hr loc Hl) as (A & B & C).
  assert (Hm : modelAt s loc = zeroModel) by (unfold modelAt; rewrite A; reflexivity).
  assert (Ha : alertAt s loc = zeroAlert) by (unfold alertAt; rewrite B; reflexivity).
  split; [exact Hm|]. split; [exact Ha|]. split; [exact C|].
  split; [apply computePropagationModel_no_data, Hl|].
  split; [intros reqId; rewrite generateAirQualityAlert_cases, Hm; reflexivity|].
  unfold getEncryptedModel, getAirQualityAlert. rewrite Hm, Ha. split; reflexivity.
Qed.

(** ** How calls compose *)

(** X8: a recorded request outlives an upload.  If a request identifier is
    recorded for a location and a reading is then uploaded for that
    location, a callback with that identifier, an accepted proof and a
    decodable payload succeeds: the alert is revealed although the model is
    back to not computed. *)
Theorem recorded_request_survives_upload
    s r (a ts : N) (sm ws wd : euint32) (ct pf : list byte) v s1 :
  requestLocation s r <> 0 ->
  uploadSensorData a ts sm ws wd (requestLocation s r) s = Ok s1 ->
  checkSignatures r ct pf = true ->
  abi_decode_uint32 ct = Some v ->
  exists s2,
    generateAlertCallback r ct pf s1 = Ok s2 /\
    getAirQualityAlert (requestLocation s r) s2 = Ok (alertLevelOf v) /\
    getEncryptedModel (requestLocation s r) s2 = Revert (RequireFailed "Not computed").
Proof.
  intros Hz E Hsig Hdec.
  rewrite uploadSensorData_cases in E.
  destruct (dataCount s =? MAX_UINT256); [discriminate|]. injection E as <-.
  eexists. rewrite generateAlertCallback_cases.
  unfold requestLocation at 1 2 3 4 5. cbn [requestToDataId].
  fold (requestLocation s r).
  destruct (N.eqb_spec (requestLocation s r) 0) as [|_]; [contradiction|].
  unfold alertAt at 1. cbn [airQualityAlerts]. rewrite lookup_insert_eq. cbn.
  rewrite Hsig, Hdec. cbn. split; [reflexivity|].
  unfold getAirQualityAlert, getEncryptedModel, alertAt, modelAt. cbn.
  rewrite !lookup_insert_eq. cbn. split; reflexivity.
Qed.

(** X9: the whole pipeline goes through from any state.  For a non-zero
    location, unless the reading counter is exhausted, an upload followed by
    [computePropagationModel], [generateAirQualityAlert] and the callback
    with an accepted proof and a decodable payload all succeed; afterwards
    [getAirQualityAlert] returns the label of the decoded value and
    [getEncryptedModel] the prediction computed. *)
Theorem upload_compute_request_reveal
    s (a ts : N) (sm ws wd : euint32) loc reqId (ct pf : list byte) v :
  dataCount s <> MAX_UINT256 ->
  loc <> 0 ->
  checkSignatures reqId ct pf = true ->
  abi_decode_uint32 ct = Some v ->
  exists s1 s2 s3 s4,
    uploadSensorData a ts sm ws wd loc s = Ok s1 /\
    computePropagationModel loc s1 = Ok s2 /\
    generateAirQualityAlert reqId loc s2 = Ok s3 /\
    generateAlertCallback reqId ct pf s3 = Ok s4 /\
    getAirQualityAlert loc s4 = Ok (alertLevelOf v) /\
    getEncryptedModel loc s4 = Ok (encryptedPrediction (modelAt s2 loc)).
Proof.
  intros Hmax Hloc Hsig Hdec.
  assert (E1 : exists s1, uploadSensorData a ts sm ws wd loc s = Ok s1 /\
                 ledgerAt s1 loc <> [] /\ isComputed (modelAt s1 loc) = false /\
                 isRevealed (alertAt s1 loc) = false).
  { eexists. rewrite uploadSensorData_cases.
    destruct (N.eqb_spec (dataCount s) MAX_UINT256); [contradiction|].
    split; [reflexivity|]. unfold ledgerAt, modelAt, alertAt; cbn.
    rewrite !lookup_insert_eq. cbn. split; [|split; reflexivity].
    destruct (default [] (locationData s !! loc)); discriminate. }
  destruct E1 as (s1 & E1 & Hne & Hc & Hrev).
  pose proof (computePropagationModel_success s1 loc Hne Hc) as E2.
  set (s2 := {| dataCount := dataCount s1 |}) in E2.
  assert (Hc2 : isComputed (modelAt s2 loc) = true).
  { unfold modelAt, s2; cbn. rewrite lookup_insert_eq. reflexivity. }
  pose proof (generateAirQualityAlert_cases s2 reqId loc) as E3.
  rewrite Hc2 in E3.
  set (s3 := {| dataCount := dataCount s2 |}) in E3.
  assert (Hr3 : requestLocation s3 reqId = loc).
  { unfold requestLocation, s3; cbn. rewrite lookup_insert_eq. reflexivity. }
  assert (Hrev3 : isRevealed (alertAt s3 loc) = false) by exact Hrev.
  pose proof (generateAlertCallback_cases s3 reqId ct pf) as E4.
  rewrite Hr3, Hrev3, Hsig, Hdec in E4.
  destruct (N.eqb_spec loc 0) as [|_]; [contradiction|]. cbn [negb] in E4.
  set (s4 := {| dataCount := dataCount s3 |}) in E4.
  exists s1, s2, s3, s4. repeat split; try assumption.
  - unfold getAirQualityAlert, alertAt, s4; cbn. rewrite lookup_insert_eq. reflexivity.
  - unfold getEncryptedModel. change (modelAt s4 loc) with (modelAt s2 loc).
    rewrite Hc2. reflexivity.
Qed.

(** X10: a call touches one location.  Whatever the call and whether it
    succeeds, the model, the alert and the ledger of every location other
    than the one it acts on are as before. *)
Theorem other_locations_untouched s c loc :
  loc <> target s c ->
  modelAt (step s c) loc = modelAt s loc /\
  alertAt (step s c) loc = alertAt s loc /\
  ledgerAt (step s c) loc = ledgerAt s loc.
Proof.
  intros Hloc. unfold step.
  destruct (exec c s) as [s'|e] eqn:E; [|auto].
  invert_exec E c s; cbn [target] in Hloc;
    unfold modelAt, alertAt, ledgerAt; cbn;
    rewrite ?lookup_insert_ne by congruence; auto.
Qed.

(** X11: only uploads write the audit trail.  A call other than
    [uploadSensorData] leaves the reading counter, the stored readings and
    every ledger as they were. *)
Theorem only_upload_writes_readings s c :
  isUpload c = false ->
  dataCount (step s c) = dataCount s /\
  sensorData (step s c) = sensorData s /\
  locationData (step s c) = locationData s.
Proof.
  intros Hnot. unfold step.
  destruct (exec c s) as [s'|e] eqn:E; [|auto].
  invert_exec E c s; cbn in Hnot; try discriminate; cbn; auto.
Qed.

Lemma step_keeps_request s c (rid : N) :
  isRequestWith rid c = false ->
  requestToDataId (step s c) !! rid = requestToDataId s !! rid.
Proof.
  intros Hnot. unfold step.
  destruct (exec c s) as [s'|e] eqn:E; [|reflexivity].
  invert_exec E c s; cbn in Hnot |- *; try reflexivity.
  apply lookup_insert_ne. intros ->. rewrite N.eqb_refl in Hnot. discriminate.
Qed.

(** X12: request records are permanent.  Across any sequence of calls in
    which [generateAirQualityAlert] is not handed the identifier again, the
    location recorded for a request identifier stays the same; a callback,
    successful or not, does not consume it. *)
Theorem request_record_permanent (calls : list Call) s r :
  forallb (fun c => negb (isRequestWith r c)) calls = true ->
  requestToDataId (run calls s) !! r = requestToDataId s !! r.
Proof.
  revert s. induction calls as [|c calls IH]; intros s Hall; [reflexivity|].
  cbn in Hall. apply andb_prop in Hall. destruct Hall as [Hc Hall].
  cbn [run fold_left]. fold (run calls (step s c)).
  rewrite (IH _ Hall). apply step_keeps_request.
  destruct (isRequestWith r c); [discriminate|reflexivity].
Qed.

(** ** The aggregation does not depend on the order of the readings *)

Lemma total_permutation (xs ys : list N) :
  Permutation xs ys -> total xs = total ys.
Proof.
  unfold total.
  induction 1 as [|x xs ys _ IH|x y xs|xs ys zs _ IH1 _ IH2]; cbn.
  - reflexivity.
  - rewrite IH. reflexivity.
  - lia.
  - congruence.
Qed.

(** X13: the order of a ledger does not matter to the result.  For a
    library whose values decrypt homomorphically, two states whose ledgers
    for a location hold the same readings in different orders get
    predictions with the same cleartext. *)
Theorem prediction_order_independent
    (decrypt : euint32 -> N) s1 s2 loc s1' s2' :
  Homomorphic F decrypt ->
  Permutation (readingsAt s1 loc) (readingsAt s2 loc) ->
  N.of_nat (length (ledgerAt s1 loc)) < UINT32_MOD ->
  computePropagationModel loc s1 = Ok s1' ->
  computePropagationModel loc s2 = Ok s2' ->
  decrypt (encryptedPrediction (modelAt s1' loc))
    = decrypt (encryptedPrediction (modelAt s2' loc)).
Proof.
  intros Hd Hperm Hlt E1 E2.
  assert (Hlen : length (ledgerAt s2 loc) = length (ledgerAt s1 loc)).
  { apply Permutation_length in Hperm. unfold readingsAt in Hperm.
    rewrite !length_map in Hperm. congruence. }
  destruct (computePropagationModel_ok_inv _ _ _ E1) as (Hne1 & Hc1 & _).
  destruct (computePropagationModel_ok_inv _ _ _ E2) as (Hne2 & Hc2 & _).
  rewrite (computePropagationModel_success _ _ Hne1 Hc1) in E1. injection E1 as <-.
  rewrite (computePropagationModel_success _ _ Hne2 Hc2) in E2. injection E2 as <-.
  unfold modelAt. cbn. rewrite !lookup_insert_eq. cbn. rewrite Hlen.
  set (count := N.of_nat (length (ledgerAt s1 loc))) in *.
  assert (Hcount : decrypt (asEuint32 (uint32 count)) <> 0).
  { rewrite (decrypt_asEuint32 _ _ Hd). unfold uint32.
    rewrite N.Div0.mod_mod, (N.mod_small _ _ Hlt).
    unfold count. destruct (ledgerAt s1 loc); [congruence|]. cbn. lia. }
  rewrite !(decrypt_mul _ _ Hd), !(decrypt_div _ _ Hd) by exact Hcount.
  rewrite !(decrypt_esum _ _ Hd).
  rewrite (total_permutation _ _
             (Permutation_map decrypt (Permutation_map encryptedSmokeLevel Hperm))).
  rewrite (total_permutation _ _
             (Permutation_map decrypt (Permutation_map encryptedWindSpeed Hperm))).
  reflexivity.
Qed.

End Invariants.

(** * The invariants at concrete inputs *)

Section InvariantRuns.
#[local] Existing Instance Plain.
Import Scenario.

Lemma reachable_twoLocations : reachable twoLocations.
Proof. exists history. reflexivity. Qed.

Lemma reading_in_its_ledger_only_witness :
  reachable twoLocations /\
  (In 3 (ledgerAt twoLocations 2) <->
     1 <= 3 <= dataCount twoLocations /\
     locationId (sensorDataAt twoLocations 3) = 2) /\
  (forall loc', In 3 (ledgerAt twoLocations 2) ->
                In 3 (ledgerAt twoLocations loc') -> loc' = 2).
Proof.
  split; [exact reachable_twoLocations|].
  exact (reading_in_its_ledger_only twoLocations 2 3 reachable_twoLocations).
Defined.

Lemma ledger_strictly_increasing_witness :
  reachable twoLocations /\
  ledgerAt twoLocations 1 = [1; 2; 4] /\
  StronglySorted N.lt (ledgerAt twoLocations 1) /\ NoDup (ledgerAt twoLocations 1).
Proof.
  split; [exact reachable_twoLocations|]. split; [reflexivity|].
  exact (ledger_strictly_increasing twoLocations 1 reachable_twoLocations).
Defined.

Lemma sensorData_keys_witness :
  reachable twoLocations /\
  dataCount twoLocations = 4 /\
  (is_Some (sensorData twoLocations !! 5) <-> 1 <= 5 <= dataCount twoLocations) /\
  (5 = 0 \/ dataCount twoLocations < 5 -> sensorDataAt twoLocations 5 = zeroSensorData).
Proof.
  split; [exact reachable_twoLocations|]. split; [reflexivity|].
  exact (sensorData_keys twoLocations 5 reachable_twoLocations).
Defined.

Lemma readings_and_ledgers_append_only_witness :
  reachable twoLocations /\
  (forall id d, sensorData twoLocations !! id = Some d ->
     sensorData (run [upload 80 30 1; ComputePropagationModel 1] twoLocations) !! id
       = Some d) /\
  (forall loc, exists suffix,
     ledgerAt (run [upload 80 30 1; ComputePropagationModel 1] twoLocations) loc
       = ledgerAt twoLocations loc ++ suffix) /\
  dataCount twoLocations
    <= dataCount (run [upload 80 30 1; ComputePropagationModel 1] twoLocations).
Proof.
  split; [exact reachable_twoLocations|].
  exact (readings_and_ledgers_append_only
           [upload 80 30 1; ComputePropagationModel 1] twoLocations
           reachable_twoLocations).
Defined.

Lemma ledger_matches_events_witness :
  reachable twoLocations /\
  uploadedIds 1 (events twoLocations) = [1; 2; 4] /\
  ledgerAt twoLocations 1 = uploadedIds 1 (events twoLocations) /\
  getLocationDataCount 1 twoLocations
    = Ok (N.of_nat (length (uploadedIds 1 (events twoLocations)))).
Proof.
  split; [exact reachable_twoLocations|]. split; [reflexivity|].
  exact (ledger_matches_events twoLocations 1 reachable_twoLocations).
Defined.

Lemma getAirQualityAlert_label_witness :
  reachable twoLocations /\
  isRevealed (alertAt twoLocations 1) = true /\
  In (alertLevel (alertAt twoLocations 1)) alertLabels.
Proof.
  split; [exact reachable_twoLocations|]. split; [reflexivity|].
  destruct (getAirQualityAlert_label twoLocations 1 reachable_twoLocations)
    as (_ & H & _).
  apply H. reflexivity.
Defined.

Lemma location_without_readings_witness :
  reachable twoLocations /\
  ledgerAt twoLocations 9 = [] /\
  computePropagationModel 9 twoLocations
    = Revert (RequireFailed "No data for location") /\
  generateAirQualityAlert 6 9 twoLocations
    = Revert (RequireFailed "Model not computed") /\
  (forall r, requestToDataId twoLocations !! r <> Some 9).
Proof.
  assert (H : ledgerAt twoLocations 9 = []) by reflexivity.
  split; [exact reachable_twoLocations|]. split; [exact H|].
  destruct (location_without_readings twoLocations 9 reachable_twoLocations H)
    as (_ & _ & R & C & G & _).
  split; [exact C|]. split; [exact (G 6)|exact R].
Defined.

Lemma recorded_request_survives_upload_witness :
  requestLocation requested 5 <> 0 /\
  uploadSensorData agencyA 1700000000 80 30 90 (requestLocation requested 5) requested
    = Ok (step requested (upload 80 30 1)) /\
  FHE.checkSignatures 5 (abi_encode_uint32 9000) validProof = true /\
  abi_decode_uint32 (abi_encode_uint32 9000) = Some 9000 /\
  exists s2,
    generateAlertCallback 5 (abi_encode_uint32 9000) validProof
      (step requested (upload 80 30 1)) = Ok s2 /\
    getAirQualityAlert 1 s2 = Ok "Hazardous"%string /\
    getEncryptedModel 1 s2 = Revert (RequireFailed "Not computed").
Proof.
  assert (H1 : requestLocation requested 5 <> 0) by (vm_compute; discriminate).
  assert (H2 : uploadSensorData agencyA 1700000000 80 30 90
                 (requestLocation requested 5) requested
               = Ok (step requested (upload 80 30 1))) by (vm_compute; reflexivity).
  assert (H3 : FHE.checkSignatures 5 (abi_encode_uint32 9000) validProof = true)
    by reflexivity.
  assert (H4 : abi_decode_uint32 (abi_encode_uint32 9000) = Some 9000) by reflexivity.
  split; [exact H1|]. split; [exact H2|]. split; [exact H3|]. split; [exact H4|].
  exact (recorded_request_survives_upload (F:=Plain)
           requested 5 agencyA 1700000000 80 30 90
           (abi_encode_uint32 9000) validProof 9000 _ H1 H2 H3 H4).
Defined.

Lemma upload_compute_request_reveal_witness :
  dataCount twoLocations <> MAX_UINT256 /\
  3 <> 0 /\
  FHE.checkSignatures 8 (abi_encode_uint32 4200) validProof = true /\
  abi_decode_uint32 (abi_encode_uint32 4200) = Some 4200 /\
  exists s1 s2 s3 s4,
    uploadSensorData agencyA 1700000000 70 60 90 3 twoLocations = Ok s1 /\
    computePropagationModel 3 s1 = Ok s2 /\
    generateAirQualityAlert 8 3 s2 = Ok s3 /\
    generateAlertCallback 8 (abi_encode_uint32 4200) validProof s3 = Ok s4 /\
    getAirQualityAlert 3 s4 = Ok (alertLevelOf 4200) /\
    getEncryptedModel 3 s4 = Ok (encryptedPrediction (modelAt s2 3)).
Proof.
  assert (H1 : dataCount twoLocations <> MAX_UINT256) by (vm_compute; discriminate).
  assert (H2 : 3 <> 0) by discriminate.
  assert (H3 : FHE.checkSignatures 8 (abi_encode_uint32 4200) validProof = true)
    by reflexivity.
  assert (H4 : abi_decode_uint32 (abi_encode_uint32 4200) = Some 4200) by reflexivity.
  split; [exact H1|]. split; [exact H2|]. split; [exact H3|]. split; [exact H4|].
  exact (upload_compute_request_reveal (F:=Plain)
           twoLocations agencyA 1700000000 70 60 90 3 8
           (abi_encode_uint32 4200) validProof 4200 H1 H2 H3 H4).
Defined.

Lemma other_locations_untouched_witness :
  1 <> target twoLocations (upload 1 1 2) /\
  modelAt (step twoLocations (upload 1 1 2)) 1 = modelAt twoLocations 1 /\
  alertAt (step twoLocations (upload 1 1 2)) 1 = alertAt twoLocations 1 /\
  ledgerAt (step twoLocations (upload 1 1 2)) 1 = ledgerAt twoLocations 1.
Proof.
  assert (H : 1 <> target twoLocations (upload 1 1 2)) by (vm_compute; discriminate).
  split; [exact H|].
  exact (other_locations_untouched twoLocations (upload 1 1 2) 1 H).
Defined.

Lemma only_upload_writes_readings_witness :
  isUpload (F:=Plain) (ComputePropagationModel 2) = false /\
  dataCount (step twoLocations (ComputePropagationModel 2)) = dataCount twoLocations /\
  sensorData (step twoLocations (ComputePropagationModel 2)) = sensorData twoLocations /\
  locationData (step twoLocations (ComputePropagationModel 2))
    = locationData twoLocations.
Proof.
  assert (H : isUpload (F:=Plain) (ComputePropagationModel 2) = false) by reflexivity.
  split; [exact H|].
  exact (only_upload_writes_readings twoLocations (ComputePropagationModel 2) H).
Defined.

Lemma request_record_permanent_witness :
  forallb (fun c => negb (isRequestWith 5 c))
    [GenerateAlertCallback 5 (abi_encode_uint32 40) validProof;
     upload 80 30 1; GenerateAirQualityAlert 6 1] = true /\
  requestToDataId
    (run [GenerateAlertCallback 5 (abi_encode_uint32 40) validProof;
          upload 80 30 1; GenerateAirQualityAlert 6 1] requested) !! 5
  = requestToDataId requested !! 5.
Proof.
  assert (H : forallb (fun c => negb (isRequestWith 5 c))
                [GenerateAlertCallback 5 (abi_encode_uint32 40) validProof;
                 upload 80 30 1; GenerateAirQualityAlert 6 1] = true) by reflexivity.
  split; [exact H|].
  exact (request_record_permanent _ requested 5 H).
Defined.

Lemma prediction_order_independent_witness :
  FHE.Homomorphic Plain plain_decrypt /\
  Permutation (readingsAt ascending 1) (readingsAt descending 1) /\
  N.of_nat (length (ledgerAt ascending 1)) < UINT32_MOD /\
  computePropagationModel 1 ascending
    = Ok (step ascending (ComputePropagationModel 1)) /\
  computePropagationModel 1 descending
    = Ok (step descending (ComputePropagationModel 1)) /\
  plain_decrypt (encryptedPrediction
                   (modelAt (step ascending (ComputePropagationModel 1)) 1))
  = plain_decrypt (encryptedPrediction
                     (modelAt (step descending (ComputePropagationModel 1)) 1)).
Proof.
  assert (H1 : Permutation (readingsAt ascending 1) (readingsAt descending 1))
    by (vm_compute; apply perm_swap).
  assert (H2 : N.of_nat (length (ledgerAt ascending 1)) < UINT32_MOD)
    by (vm_compute; reflexivity).
  assert (H3 : computePropagationModel 1 ascending
               = Ok (step ascending (ComputePropagationModel 1)))
    by (vm_compute; reflexivity).
  assert (H4 : computePropagationModel 1 descending
               = Ok (step descending (ComputePropagationModel 1)))
    by (vm_compute; reflexivity).
  split; [exact plain_homomorphic|].
  split; [exact H1|]. split; [exact H2|]. split; [exact H3|]. split; [exact H4|].
  exact (prediction_order_independent (F:=Plain) plain_decrypt
           ascending descending 1 _ _ plain_homomorphic H1 H2 H3 H4).
Defined.

End InvariantRuns.
